(** * Playwright web scraper: pagination and incremental persistence

    A shallow embedding of [src/scraper.py] ([WebScraper]) and the
    properties of its page counter, record extractor, CSV writer and
    page loop.

    Conventions of the embedding:
    - a Python [str] is a [string]; its characters stand for the code
      points U+0000..U+00FF, so [\d] is exactly [0-9] and the whitespace
      removed by [str.strip] is the set listed in [Py.isspace];
    - a Python [dict] with insertion order is an association list;
    - a call that may raise returns a [result]; the exceptions are those
      of class [Exception], which is what the handlers of the source
      catch (cancellation and interpreter exit are not modelled);
    - the browser is an oracle: a site maps a URL to the outcome of
      [page.goto] and to the document that is then current; a host
      adds whether the browser can be launched and closed, and a world
      is read as the host where both succeed;
    - the CSV file is the list of its rows, a row the list of its cells;
    - [random.random] is an oracle giving the successive draws, and
      delays are rationals. *)

From Stdlib Require Import List String Ascii ZArith QArith Lia Bool.
From Stdlib Require Import DecimalString DecimalPos FinFun Lqa Permutation.
Import ListNotations.

Local Open Scope Z_scope.

(** ** Exceptions *)

Inductive exn : Type :=
| TimeoutError      (* playwright.async_api.TimeoutError *)
| FileNotFoundError
| Exception_.       (* any other subclass of Exception *)

Inductive result (A : Type) : Type :=
| Ok (a : A)
| Raise (e : exn).

Arguments Ok {A} a.
Arguments Raise {A} e.

Definition bind {A B} (c : result A) (k : A -> result B) : result B :=
  match c with
  | Ok a => k a
  | Raise e => Raise e
  end.

Notation "x <- c ;; k" := (bind c (fun x => k))
  (at level 61, c at next level, right associativity).

(** ** The Python primitives the scraper uses *)

Module Py.

(** [str.isspace] on one character, for code points below 256. *)
Definition isspace (c : ascii) : bool :=
  let n := N_of_ascii c in
  (((9 <=? n) && (n <=? 13)) || ((28 <=? n) && (n <=? 32))
   || (n =? 133) || (n =? 160))%N.

Fixpoint lstrip (s : string) : string :=
  match s with
  | EmptyString => EmptyString
  | String c s' => if isspace c then lstrip s' else s
  end.

(** [rstrip] keeps a character when it is not a space or when something
    is kept after it. *)
Fixpoint rstrip (s : string) : string :=
  match s with
  | EmptyString => EmptyString
  | String c s' =>
      match rstrip s' with
      | EmptyString => if isspace c then EmptyString else String c EmptyString
      | t => String c t
      end
  end.

(** [s.strip()] *)
Definition strip (s : string) : string := rstrip (lstrip s).

(** [c in s] for a one-character [c]. *)
Fixpoint contains (c : ascii) (s : string) : bool :=
  match s with
  | EmptyString => false
  | String d s' => if Ascii.eqb c d then true else contains c s'
  end.

(** [str(n)] for an [int]. *)
Definition str (n : Z) : string := NilZero.string_of_int (Z.to_int n).

Definition isdigit (c : ascii) : bool :=
  let n := N_of_ascii c in ((48 <=? n) && (n <=? 57))%N.

Definition digit_value (c : ascii) : Z := Z.of_N (N_of_ascii c) - 48.

(** The longest run of digits at the head of [s]: the greedy [\d+]
    (or the empty string when [s] does not start with a digit). *)
Fixpoint span_digits (s : string) : string :=
  match s with
  | EmptyString => EmptyString
  | String c s' => if isdigit c then String c (span_digits s') else EmptyString
  end.

Fixpoint int_acc (s : string) (acc : Z) : Z :=
  match s with
  | EmptyString => acc
  | String c s' => int_acc s' (10 * acc + digit_value c)
  end.

(** [sys.int_info.default_max_str_digits]: CPython refuses to convert a
    longer run of digits with a [ValueError]. *)
Definition int_max_str_digits : nat := 4300.

(** [int(s)] for a string of digits. *)
Definition int (s : string) : result Z :=
  if (int_max_str_digits <? String.length s)%nat then Raise Exception_
  else Ok (int_acc s 0).

(** [max(l)] for a non-empty list of integers. *)
Fixpoint max (x : Z) (l : list Z) : Z :=
  match l with
  | [] => x
  | y :: l' => max (Z.max x y) l'
  end.

(** [range(lo, hi)] *)
Definition range (lo hi : Z) : list Z :=
  map (fun i => lo + Z.of_nat i) (seq 0 (Z.to_nat (hi - lo))).

(** [random.uniform(a, b)], from the draw [u] of [random.random()]. *)
Definition uniform (a b u : Q) : Q := (a + (b - a) * u)%Q.

End Py.

(** ** Regular expression of the page counter *)

(** Does [s] start with [p]? *)
Fixpoint starts_with (p s : string) : bool :=
  match p, s with
  | EmptyString, _ => true
  | String a p', String b s' => Ascii.eqb a b && starts_with p' s'
  | String _ _, EmptyString => false
  end.

Fixpoint drop (n : nat) (s : string) : string :=
  match n, s with
  | O, _ => s
  | S n', String _ s' => drop n' s'
  | S _, EmptyString => EmptyString
  end.

(** [re.match(r"\?page=(\d+)", s)], returning group 1: the literal
    prefix and then at least one digit, taken greedily. *)
Definition match_here (s : string) : option string :=
  if starts_with "?page=" s then
    match Py.span_digits (drop 6 s) with
    | EmptyString => None
    | ds => Some ds
    end
  else None.

(** [re.search(r"\?page=(\d+)", s)], returning group 1 of the leftmost
    match. *)
Fixpoint re_search (s : string) : option string :=
  match match_here s with
  | Some ds => Some ds
  | None =>
      match s with
      | EmptyString => None
      | String _ s' => re_search s'
      end
  end.


(** ** Documents and the browser oracle *)

(** An element handle; [inner_text()] gives its text or raises. *)
Inductive element : Type :=
| Element (inner_text : result string).

(** One [.company-item]: what [query_selector] answers for each of the
    four sub-selectors (an exception, no element, or an element), and
    what the clock reads, formatted, when the listing is processed. *)
Record listing : Type := {
  query_name : result (option element);
  query_location : result (option element);
  query_revenue : result (option element);
  query_employees : result (option element);
  now : string
}.

(** A loaded document, as far as the scraper looks at it:
    [query_selector_all("a[href*='?page=']")] with the answer of
    [get_attribute("href")] for each link, and
    [query_selector_all(".company-item")]. *)
Record dom : Type := {
  page_links : result (list (result (option string)));
  companies : result (list listing)
}.

(** [page.goto] returns a response, or [None], or raises. *)
Inductive response : Type :=
| Response (status : Z).

Record page_load : Type := {
  goto : result (option response);
  document : dom
}.

Record world : Type := {
  site : string -> page_load;   (* what loading a URL does *)
  random : nat -> Q             (* the n-th value of random.random() *)
}.

(** ** Records and the output file *)

(** A record is a [dict] from field name to text, in insertion order. *)
Definition record : Type := list (string * string).

Definition keys (r : record) : list string := map fst r.

Fixpoint get (k : string) (r : record) : option string :=
  match r with
  | [] => None
  | (k', v) :: r' => if String.eqb k k' then Some v else get k r'
  end.

Fixpoint mem (k : string) (l : list string) : bool :=
  match l with
  | [] => false
  | k' :: l' => String.eqb k k' || mem k l'
  end.

(** A row of the CSV file, as its cells. *)
Definition row : Type := list string.

(** The file at [output_file], in a directory that exists: absent, and
    such that it can be created; a regular file with its rows, which
    can be read and written; or something [open] fails on in every mode
    with an [OSError] other than [FileNotFoundError] (a directory, no
    permission at all). *)
Inductive file : Type :=
| Missing
| Regular (rows : list row)
| Denied.

Inductive file_mode : Type := W | A.

(** What the path [output_file] leads to: a file in one of the states
    above, in a directory that exists; or nothing, the directory itself
    being absent, so that no file can be created there; or a file that
    can be read but not written.  A [file] is read as the destination
    it is in an existing directory. *)
Inductive destination : Type :=
| At (f : file)
| NoDirectory
| ReadOnly (rows : list row).

Coercion At : file >-> destination.

#[local] Arguments pair {A B}%_type_scope & _ _.

(** [open(output_file, 'r')] *)
Definition open_read (d : destination) : result (list row) :=
  match d with
  | At Missing => Raise FileNotFoundError
  | At (Regular rows) => Ok rows
  | At Denied => Raise Exception_
  | NoDirectory => Raise FileNotFoundError
  | ReadOnly rows => Ok rows
  end.

(** [open(output_file, mode)] for ['w'] and ['a']: the rows the file
    holds once it is open. *)
Definition open_write (mode : file_mode) (d : destination)
  : result (list row) :=
  match d with
  | At Denied => Raise Exception_
  | At Missing => Ok []
  | At (Regular rows) => match mode with W => Ok [] | A => Ok rows end
  | NoDirectory => Raise FileNotFoundError
  | ReadOnly _ => Raise Exception_   (* PermissionError *)
  end.

(** [csv.DictWriter._dict_to_list] with the default
    [extrasaction='raise'] and [restval='']. *)
Definition dict_to_list (fieldnames : list string) (rowdict : record)
  : result row :=
  match filter (fun k => negb (mem k fieldnames)) (keys rowdict) with
  | [] => Ok (map (fun k => match get k rowdict with
                            | Some v => v
                            | None => EmptyString
                            end) fieldnames)
  | _ :: _ => Raise Exception_   (* ValueError *)
  end.

(** [DictWriter.writerows]: rows are converted and written one at a
    time, so the rows before an offending one are already in the file. *)
Fixpoint writerows (fieldnames : list string) (data : list record)
                   (rows : list row) : list row * result unit :=
  match data with
  | [] => (rows, Ok tt)
  | d :: data' =>
      match dict_to_list fieldnames d with
      | Ok r => writerows fieldnames data' (rows ++ [r])
      | Raise e => (rows, Raise e)
      end
  end.

(** ** WebScraper *)

Record WebScraper : Type := {
  url : string;
  output_file : string;
  delay_range : Q * Q
}.

(** *** navigate_to_url *)

Definition target_url (self : WebScraper) (u : option string) : string :=
  match u with
  | Some u' => if String.eqb u' EmptyString then url self else u'
  | None => url self
  end.

(** The [try] block: [response.status] on [None] is an
    [AttributeError]. *)
Definition navigate_to_url_try (g : result (option response))
  : result bool :=
  response <- g ;;
  status <- match response with
            | Some (Response status) => Ok status
            | None => Raise Exception_
            end ;;
  if 400 <=? status then Ok false else Ok true.

Definition navigate_to_url (g : result (option response)) : bool :=
  match navigate_to_url_try g with
  | Ok b => b
  | Raise TimeoutError => false
  | Raise _ => false
  end.

(** *** get_total_pages *)

(** The [for link in page_links] loop; [re.search] on a [None] href is
    a [TypeError]. *)
Fixpoint collect_pages (links : list (result (option string)))
                       (pages : list Z) : result (list Z) :=
  match links with
  | [] => Ok pages
  | link :: links' =>
      href <- link ;;
      href <- match href with
              | Some h => Ok h
              | None => Raise Exception_
              end ;;
      match re_search href with
      | Some group1 =>
          n <- Py.int group1 ;;
          collect_pages links' (pages ++ [n])
      | None => collect_pages links' pages
      end
  end.

Definition get_total_pages_try (d : dom) : result Z :=
  links <- page_links d ;;
  pages <- collect_pages links [] ;;
  match pages with
  | p :: ps => Ok (Py.max p ps)
  | [] => Ok 1
  end.

Definition get_total_pages (d : dom) : Z :=
  match get_total_pages_try d with
  | Ok n => n
  | Raise _ => 1
  end.

(** *** extract_data *)

Definition NA : string := "N/A".

(** [await elem.inner_text() if elem else "N/A"] *)
Definition text_or_NA (elem : option element) : result string :=
  match elem with
  | Some (Element inner_text) => inner_text
  | None => Ok NA
  end.

Definition extract_company (company : listing) : result record :=
  name_elem <- query_name company ;;
  location_elem <- query_location company ;;
  revenue_elem <- query_revenue company ;;
  employees_elem <- query_employees company ;;
  name <- text_or_NA name_elem ;;
  location <- text_or_NA location_elem ;;
  revenue <- text_or_NA revenue_elem ;;
  employees <- text_or_NA employees_elem ;;
  Ok [ ("name"%string, Py.strip name);
       ("location"%string, Py.strip location);
       ("revenue"%string, Py.strip revenue);
       ("employees"%string, Py.strip employees);
       ("timestamp"%string, now company) ].

Fixpoint extract_companies (cs : list listing) (results : list record)
  : result (list record) :=
  match cs with
  | [] => Ok results
  | company :: cs' =>
      r <- extract_company company ;;
      extract_companies cs' (results ++ [r])
  end.

Definition extract_data_try (d : dom) : result (list record) :=
  cs <- companies d ;;
  extract_companies cs [].

Definition extract_data (d : dom) : list record :=
  match extract_data_try d with
  | Ok results => results
  | Raise _ => []
  end.

(** *** save_to_csv *)

(** Lines 109-117: whether the header row is to be written. *)
Definition header_wanted (mode : file_mode) (f : destination)
  : result bool :=
  match mode with
  | W => Ok true
  | A =>
      match open_read f with
      | Ok _ => Ok false
      | Raise FileNotFoundError => Ok true
      | Raise e => Raise e
      end
  end.

(** The [try] block, for a non-empty [data]: the file it leaves and what
    it returns or raises. *)
Definition save_to_csv_try (first : record) (data : list record)
                           (mode : file_mode) (f : destination)
  : destination * result bool :=
  let field_names := keys first in
  match header_wanted mode f with
  | Raise e => (f, Raise e)
  | Ok header =>
      match open_write mode f with
      | Raise e => (f, Raise e)
      | Ok rows =>
          let rows := if header then rows ++ [field_names] else rows in
          match writerows field_names data rows with
          | (rows', Ok _) => (Regular rows', Ok true)
          | (rows', Raise e) => (Regular rows', Raise e)
          end
      end
  end.

Definition save_to_csv (data : list record) (mode : file_mode)
                       (f : destination)
  : destination * bool :=
  match data with
  | [] => (f, false)
  | first :: _ =>
      match save_to_csv_try first data mode f with
      | (f', Ok b) => (f', b)
      | (f', Raise _) => (f', false)
      end
  end.

(** *** random_delay *)

Definition random_delay (self : WebScraper) (u : Q) : Q :=
  Py.uniform (fst (delay_range self)) (snd (delay_range self)) u.

(** *** run *)

(** Where [run] calls [save_to_csv]: in the page loop (line 164) or after
    it (line 172). *)
Inductive call_site : Type :=
| InLoop (page : Z)
| AfterLoop.

(** What [run] does to the outside, in order. *)
Inductive event : Type :=
| Launch                                          (* initialize_browser *)
| Goto (target : string)                          (* page.goto *)
| Extract (page : Z) (data : list record)         (* extract_data *)
| Save (at_ : call_site) (batch : list record)    (* save_to_csv *)
| Sleep (page : Z) (delay : Q)                    (* asyncio.sleep *)
| Close.                                          (* close *)

Record machine : Type := {
  current : dom;        (* the document of self.page *)
  disk : destination;   (* what output_file leads to *)
  draws : nat;          (* how many random numbers were drawn *)
  trace : list event;
  raised : option exn   (* the exception [run] ended with, if any *)
}.

Definition emit (e : event) (m : machine) : machine :=
  {| current := current m; disk := disk m; draws := draws m;
     trace := trace m ++ [e]; raised := raised m |}.

Definition do_navigate (w : world) (self : WebScraper) (u : option string)
                       (m : machine) : bool * machine :=
  let t := target_url self u in
  let l := site w t in
  (navigate_to_url (goto l),
   emit (Goto t) {| current := document l; disk := disk m;
                    draws := draws m; trace := trace m;
                    raised := raised m |}).

(** [run] calls [save_to_csv(all_data)]: the mode is the default ['w'],
    and the result is dropped. *)
Definition do_save (at_ : call_site) (all_data : list record)
                   (m : machine) : machine :=
  emit (Save at_ all_data)
       {| current := current m; disk := fst (save_to_csv all_data W (disk m));
          draws := draws m; trace := trace m; raised := raised m |}.

Definition do_random_delay (w : world) (self : WebScraper) (page : Z)
                           (m : machine) : machine :=
  emit (Sleep page (random_delay self (random w (draws m))))
       {| current := current m; disk := disk m;
          draws := S (draws m); trace := trace m; raised := raised m |}.

(** Line 151. *)
Definition page_url (self : WebScraper) (page : Z) : string :=
  (url self ++ (if Py.contains "?" (url self) then "&" else "?")
            ++ "page=" ++ Py.str page)%string.

(** One turn of [for page in range(1, total_pages + 1)]. *)
Definition iteration (w : world) (self : WebScraper) (total_pages : Z)
                     (st : list record * machine) (page : Z)
  : list record * machine :=
  let (all_data, m) := st in
  let (success, m) :=
    if 1 <? page then do_navigate w self (Some (page_url self page)) m
    else (true, m) in
  if negb success then (all_data, m)          (* continue *)
  else
    let data := extract_data (current m) in
    let m := emit (Extract page data) m in
    let all_data := (all_data ++ data)%list in
    let (all_data, m) :=
      if (page mod 5 =? 0) || (page =? total_pages)
      then ([], do_save (InLoop page) all_data m)
      else (all_data, m) in
    let m := if page <? total_pages then do_random_delay w self page m
             else m in
    (all_data, m).

(** Lines 142-144. *)
Definition clamp (max_pages : option Z) (total_pages : Z) : Z :=
  match max_pages with
  | Some mp => if negb (mp =? 0) && (mp <? total_pages) then mp
               else total_pages
  | None => total_pages
  end.

(** The browser starts on a blank page. *)
Definition blank : dom := {| page_links := Ok []; companies := Ok [] |}.

Definition boot (f : destination) : machine :=
  {| current := blank; disk := f; draws := 0; trace := []; raised := None |}.

(** The machine the scraper runs on: the world, and what
    [initialize_browser] and [close] do there. *)
Record host : Type := {
  place : world;
  launch : result unit;
  shutdown : result unit
}.

(** The host on which the browser launches and closes. *)
Definition working (w : world) : host :=
  {| place := w; launch := Ok tt; shutdown := Ok tt |}.

Coercion working : world >-> host.

(** [run] ends with the exception [e]. *)
Definition fail (e : exn) (m : machine) : machine :=
  {| current := current m; disk := disk m; draws := draws m;
     trace := trace m; raised := Some e |}.

(** [run(max_pages)], with [f] what [output_file] leads to beforehand.
    Neither [initialize_browser] (line 139) nor [close] (line 174) is
    in a [try]: what they raise ends [run]. *)
Definition run (h : host) (self : WebScraper) (max_pages : option Z)
               (f : destination) : machine :=
  let m := emit Launch (boot f) in
  match launch h with
  | Raise e => fail e m
  | Ok _ =>
      let (ok, m) := do_navigate (place h) self None m in
      let m :=
        if ok then
          let total_pages := clamp max_pages (get_total_pages (current m)) in
          let (all_data, m) :=
            fold_left (iteration (place h) self total_pages)
                      (Py.range 1 (total_pages + 1)) ([], m) in
          match all_data with
          | [] => m
          | _ :: _ => do_save AfterLoop all_data m
          end
        else m in
      let m := emit Close m in
      match shutdown h with
      | Raise e => fail e m
      | Ok _ => m
      end
  end.

(** ** Reading a trace *)

Definition gotos (t : list event) : list string :=
  flat_map (fun e => match e with Goto u => [u] | _ => [] end) t.

Definition extracts (t : list event) : list (Z * list record) :=
  flat_map (fun e => match e with Extract p d => [(p, d)] | _ => [] end) t.

Definition saves (t : list event) : list (call_site * list record) :=
  flat_map (fun e => match e with Save s b => [(s, b)] | _ => [] end) t.

Definition sleeps (t : list event) : list (Z * Q) :=
  flat_map (fun e => match e with Sleep p d => [(p, d)] | _ => [] end) t.

(** The trace without its navigations and delays. *)
Definition extract_or_save (e : event) : bool :=
  match e with
  | Extract _ _ | Save _ _ => true
  | _ => false
  end.

(** ** What a run depends on *)

(** The page count the loop runs to, when the first navigation
    succeeds. *)
Definition total_pages (w : world) (self : WebScraper)
                       (max_pages : option Z) : Z :=
  clamp max_pages (get_total_pages (document (site w (url self)))).

(** The URL the browser is sent to for [page]. *)
Definition address (self : WebScraper) (page : Z) : string :=
  if 1 <? page then page_url self page else url self.

(** Did the loop get [page] loaded?  Page 1 is loaded when the loop
    starts; for the others, [navigate_to_url] has to succeed. *)
Definition loaded (w : world) (self : WebScraper) (page : Z) : bool :=
  if 1 <? page then navigate_to_url (goto (site w (page_url self page)))
  else true.

(** The records of [page]. *)
Definition records_of (w : world) (self : WebScraper) (page : Z)
  : list record :=
  extract_data (document (site w (address self page))).

(** ** A small site to run the scraper on *)

Module Demo.

Definition base : string := "https://x.test/list".

Definition scraper : WebScraper :=
  {| url := base; output_file := "out.csv"; delay_range := (2 # 1, 5 # 1) |}.

Definition text (s : string) : result (option element) :=
  Ok (Some (Element (Ok s))).

(** The [i]-th company of page [p]; it has no [.employees] element. *)
Definition company (p i : Z) : listing :=
  {| query_name := text (" Co " ++ Py.str p ++ "." ++ Py.str i ++ " ");
     query_location := text "Berlin";
     query_revenue := text "1M";
     query_employees := Ok None;
     now := "2024-01-01 12:00:00" |}.

(** Page [p] of [n], with [k] companies and links to every page. *)
Definition page (n k p : Z) : dom :=
  {| page_links :=
       Ok (map (fun q => Ok (Some ("/list?page=" ++ Py.str q)%string))
               (Py.range 1 (n + 1)));
     companies := Ok (map (company p) (Py.range 1 (k + 1))) |}.

Definition ok_load (d : dom) : page_load :=
  {| goto := Ok (Some (Response 200)); document := d |}.

Definition not_found : page_load :=
  {| goto := Ok (Some (Response 404)); document := blank |}.

(** A site of [n] pages with [k] companies each; the pages listed in
    [down] time out. *)
Definition pages (n k : Z) (down : list Z) (u : string) : page_load :=
  match find (fun p => String.eqb u (address scraper p)) (Py.range 1 (n + 1)) with
  | Some p =>
      if existsb (Z.eqb p) down
      then {| goto := Raise TimeoutError; document := blank |}
      else ok_load (page n k p)
  | None => not_found
  end.

Definition world_of (n k : Z) (down : list Z) : world :=
  {| site := pages n k down; random := fun _ => 1 # 2 |}.

End Demo.


(** * Properties *)

(** ** Strings *)

Section Strip.

Definition all_space (s : string) : bool :=
  forallb Py.isspace (list_ascii_of_string s).

Definition first_char (s : string) : option ascii :=
  match s with
  | EmptyString => None
  | String c _ => Some c
  end.

Fixpoint last_char (s : string) : option ascii :=
  match s with
  | EmptyString => None
  | String c EmptyString => Some c
  | String _ s' => last_char s'
  end.

Definition not_space (o : option ascii) : Prop :=
  match o with
  | Some c => Py.isspace c = false
  | None => True
  end.

(** [t] is [s] without its leading and trailing whitespace. *)
Definition trim_of (t s : string) : Prop :=
  exists l r, s = (l ++ t ++ r)%string
              /\ all_space l = true /\ all_space r = true
              /\ not_space (first_char t) /\ not_space (last_char t).

Lemma lstrip_split (s : string) :
  exists l, s = (l ++ Py.lstrip s)%string /\ all_space l = true.
Proof.
  induction s as [|c s [l [E L]]]; simpl.
  - exists EmptyString. split; reflexivity.
  - destruct (Py.isspace c) eqn:C.
    + exists (String c l). split.
      * simpl. now rewrite <- E.
      * unfold all_space in *. simpl. now rewrite C.
    + exists EmptyString. split; reflexivity.
Qed.

Lemma lstrip_first (s : string) : not_space (first_char (Py.lstrip s)).
Proof.
  induction s as [|c s IH]; simpl; [exact I|].
  destruct (Py.isspace c) eqn:C; [exact IH | exact C].
Qed.

Lemma rstrip_split (s : string) :
  exists r, s = (Py.rstrip s ++ r)%string /\ all_space r = true.
Proof.
  induction s as [|c s [r [E R]]]; simpl.
  - exists EmptyString. split; reflexivity.
  - destruct (Py.rstrip s) as [|c' t] eqn:T.
    + simpl in E. subst r. destruct (Py.isspace c) eqn:C.
      * exists (String c s). split; [reflexivity|].
        unfold all_space in *. simpl. now rewrite C.
      * exists s. split; [reflexivity | exact R].
    + exists r. split; [|exact R]. simpl. f_equal. exact E.
Qed.

Lemma rstrip_last (s : string) : not_space (last_char (Py.rstrip s)).
Proof.
  induction s as [|c s IH]; simpl; [exact I|].
  destruct (Py.rstrip s) as [|c' t] eqn:T.
  - destruct (Py.isspace c) eqn:C; simpl; [exact I | exact C].
  - exact IH.
Qed.

Lemma rstrip_first (s : string) :
  not_space (first_char s) -> not_space (first_char (Py.rstrip s)).
Proof.
  destruct s as [|c s]; simpl; [trivial|]. intros C.
  destruct (Py.rstrip s); [rewrite C|]; exact C.
Qed.

Lemma strip_trims (s : string) : trim_of (Py.strip s) s.
Proof.
  unfold Py.strip.
  destruct (lstrip_split s) as [l [El L]].
  destruct (rstrip_split (Py.lstrip s)) as [r [Er R]].
  exists l, r. split; [|split; [exact L|split; [exact R|split]]].
  - now rewrite <- Er.
  - apply rstrip_first, lstrip_first.
  - apply rstrip_last.
Qed.

Lemma strip_NA : Py.strip NA = NA.
Proof. reflexivity. Qed.

End Strip.

(** ** Page Navigator *)

(** C9. [navigate_to_url] always returns a boolean: [True] exactly when
    [goto] gave a response whose status is below 400, and [False] when
    [goto] raised (a timeout or any other fault), gave no response, or
    gave a status of 400 or more. *)
Theorem navigate_to_url_boolean (g : result (option response)) :
  (navigate_to_url g = true <->
     exists status, g = Ok (Some (Response status)) /\ status < 400)
  /\ (navigate_to_url g = false <->
        g = Raise TimeoutError
        \/ (exists status, g = Ok (Some (Response status)) /\ 400 <= status)
        \/ (exists e, g = Raise e)
        \/ g = Ok None).
Proof.
  destruct g as [[[status]|]|e]; unfold navigate_to_url; simpl.
  - destruct (400 <=? status) eqn:S;
      [apply Z.leb_le in S | apply Z.leb_gt in S]; split; split; intros H;
      try discriminate; try reflexivity.
    + destruct H as [s [E L]]. injection E as <-. lia.
    + right; left. now exists status.
    + now exists status.
    + destruct H as [H | [[s [E L]] | [[e H] | H]]]; try discriminate.
      injection E as <-. lia.
  - split; split; intros H; try discriminate; try reflexivity.
    + destruct H as [s [E _]]. discriminate.
    + now right; right; right.
  - assert (match e with TimeoutError => false | _ => false end = false) as ->
      by now destruct e.
    split; split; intros H; try discriminate; try reflexivity.
    + destruct H as [s [E _]]. discriminate.
    + right; right; left. now exists e.
Qed.

Lemma navigate_to_url_boolean_witness :
  navigate_to_url (Ok (Some (Response 200))) = true
  /\ navigate_to_url (Ok (Some (Response 404))) = false
  /\ navigate_to_url (Raise TimeoutError) = false.
Proof.
  split; [|split].
  - apply (proj1 (navigate_to_url_boolean _)). exists 200. split; [reflexivity | lia].
  - apply (proj2 (navigate_to_url_boolean _)). right; left.
    exists 404. split; [reflexivity | lia].
  - apply (proj2 (navigate_to_url_boolean _)). now left.
Defined.

(** ** Record Extractor *)

Section Extractor.

(** A query that raises, or an element whose [inner_text] raises. *)
Definition faulty_query (q : result (option element)) : bool :=
  match q with
  | Raise _ => true
  | Ok (Some (Element (Raise _))) => true
  | Ok (Some (Element (Ok _))) => false
  | Ok None => false
  end.

Definition faulty (c : listing) : bool :=
  faulty_query (query_name c) || faulty_query (query_location c)
  || faulty_query (query_revenue c) || faulty_query (query_employees c).

(** The value recorded under [k] for a sub-field that answered [q]. *)
Definition field_ok (k : string) (q : result (option element))
                    (r : record) : Prop :=
  match q with
  | Ok None => get k r = Some "N/A"%string
  | Ok (Some (Element (Ok text))) =>
      exists v, get k r = Some v /\ trim_of v text
  | _ => True
  end.

Definition describes (c : listing) (r : record) : Prop :=
  keys r = ["name"; "location"; "revenue"; "employees"; "timestamp"]%string
  /\ field_ok "name" (query_name c) r
  /\ field_ok "location" (query_location c) r
  /\ field_ok "revenue" (query_revenue c) r
  /\ field_ok "employees" (query_employees c) r
  /\ get "timestamp" r = Some (now c).

Lemma text_or_NA_ok (q : result (option element)) :
  faulty_query q = false ->
  exists elem text, q = Ok elem /\ text_or_NA elem = Ok text
    /\ forall k r, get k r = Some (Py.strip text) -> field_ok k q r.
Proof.
  destruct q as [[[[text|e]]|]|e]; simpl; intros F; try discriminate.
  - exists (Some (Element (Ok text))), text. repeat split.
    intros k r G. exists (Py.strip text). split; [exact G | apply strip_trims].
  - exists None, NA. repeat split. intros k r G. now rewrite G, strip_NA.
Qed.

Lemma extract_company_ok (c : listing) :
  faulty c = false -> exists r, extract_company c = Ok r /\ describes c r.
Proof.
  unfold faulty. intros F.
  apply orb_false_iff in F as [F Fe].
  apply orb_false_iff in F as [F Fr].
  apply orb_false_iff in F as [Fn Fl].
  destruct (text_or_NA_ok _ Fn) as [en [tn [Qn [Tn Hn]]]].
  destruct (text_or_NA_ok _ Fl) as [el [tl [Ql [Tl Hl]]]].
  destruct (text_or_NA_ok _ Fr) as [er [tr [Qr [Tr Hr]]]].
  destruct (text_or_NA_ok _ Fe) as [ee [te [Qe [Te He]]]].
  unfold extract_company. rewrite Qn, Ql, Qr, Qe. simpl.
  rewrite Tn, Tl, Tr, Te. simpl.
  eexists. split; [reflexivity|].
  repeat split; [apply Hn | apply Hl | apply Hr | apply He]; reflexivity.
Qed.

Lemma text_or_NA_faulty (q : result (option element)) :
  faulty_query q = true ->
  (exists e, q = Raise e)
  \/ (exists elem e, q = Ok elem /\ text_or_NA elem = Raise e).
Proof.
  destruct q as [[[[text|e]]|]|e]; simpl; intros F; try discriminate.
  - right. now exists (Some (Element (Raise e))), e.
  - left. now exists e.
Qed.

Lemma extract_company_faulty (c : listing) :
  faulty c = true -> exists e, extract_company c = Raise e.
Proof.
  unfold faulty, extract_company. intros F.
  destruct (query_name c) as [en|e] eqn:Qn; [|now exists e].
  destruct (query_location c) as [el|e] eqn:Ql; [|now exists e].
  destruct (query_revenue c) as [er|e] eqn:Qr; [|now exists e].
  destruct (query_employees c) as [ee|e] eqn:Qe; [|now exists e].
  simpl.
  destruct (text_or_NA en) as [tn|e] eqn:Tn; [|now exists e].
  destruct (text_or_NA el) as [tl|e] eqn:Tl; [|now exists e].
  destruct (text_or_NA er) as [tr|e] eqn:Tr; [|now exists e].
  destruct (text_or_NA ee) as [te|e] eqn:Te; [|now exists e].
  exfalso.
  assert (N : forall q t, text_or_NA q = Ok t -> faulty_query (Ok q) = false).
  { intros [[[t'|e']]|] t; simpl; intros E; congruence. }
  rewrite (N _ _ Tn), (N _ _ Tl), (N _ _ Tr), (N _ _ Te) in F.
  discriminate.
Qed.

Lemma extract_companies_ok (cs : list listing) :
  existsb faulty cs = false ->
  forall results, exists rs,
    extract_companies cs results = Ok (results ++ rs)%list
    /\ Forall2 describes cs rs.
Proof.
  induction cs as [|c cs IH]; simpl; intros F results.
  - exists []. split; [now rewrite app_nil_r | constructor].
  - apply orb_false_iff in F as [Fc F].
    destruct (extract_company_ok c Fc) as [r [E D]]. rewrite E. simpl.
    destruct (IH F (results ++ [r])%list) as [rs [Ers Drs]].
    exists (r :: rs). split; [|now constructor].
    rewrite Ers. now rewrite <- app_assoc.
Qed.

Lemma extract_companies_faulty (cs : list listing) :
  existsb faulty cs = true ->
  forall results, exists e, extract_companies cs results = Raise e.
Proof.
  induction cs as [|c cs IH]; simpl; intros F results; [discriminate|].
  destruct (faulty c) eqn:Fc.
  - destruct (extract_company_faulty c Fc) as [e E]. rewrite E. now exists e.
  - destruct (extract_company c) as [r|e]; simpl; [|now exists e].
    apply IH. exact F.
Qed.

(** C7. [extract_data] never raises. When the listings are found and no
    query or [inner_text] raises, it gives one record per listing, in
    order, each with exactly the keys name, location, revenue, employees
    and timestamp; a sub-field without element holds ["N/A"], one with an
    element holds its text without leading and trailing whitespace. On a
    fault anywhere the result is the empty list. *)
Theorem extract_data_records (d : dom) :
  match companies d with
  | Raise _ => extract_data d = []
  | Ok cs =>
      if existsb faulty cs then extract_data d = []
      else Forall2 describes cs (extract_data d)
  end.
Proof.
  unfold extract_data, extract_data_try.
  destruct (companies d) as [cs|e]; simpl; [|reflexivity].
  destruct (existsb faulty cs) eqn:F.
  - destruct (extract_companies_faulty cs F []) as [e E]. now rewrite E.
  - destruct (extract_companies_ok cs F []) as [rs [E D]]. now rewrite E.
Qed.

Example extract_data_one_company :
  extract_data (Demo.page 3 1 2)
  = [ [ ("name", "Co 2.1"); ("location", "Berlin"); ("revenue", "1M");
        ("employees", "N/A"); ("timestamp", "2024-01-01 12:00:00") ] ]%string.
Proof. reflexivity. Qed.

(** A fault on the second listing loses the record of the first. *)
Example extract_data_late_fault :
  extract_data
    {| page_links := Ok [];
       companies :=
         Ok [ Demo.company 1 1;
              {| query_name := Ok (Some (Element (Raise Exception_)));
                 query_location := Ok None; query_revenue := Ok None;
                 query_employees := Ok None; now := EmptyString |} ] |}
  = [].
Proof. reflexivity. Qed.

(** A page with two listings: one with a name in blanks and nothing
    else, one with every sub-field but the revenue. *)
Definition two_listings : dom :=
  {| page_links := Ok [];
     companies :=
       Ok [ {| query_name := Ok (Some (Element (Ok "  Acme GmbH 	"%string)));
               query_location := Ok None;
               query_revenue := Ok None;
               query_employees := Ok None;
               now := "2024-01-01 12:00:00" |};
            {| query_name := Ok (Some (Element (Ok "Bolt AG"%string)));
               query_location := Ok (Some (Element (Ok " Bonn"%string)));
               query_revenue := Ok None;
               query_employees := Ok (Some (Element (Ok "12 "%string)));
               now := "2024-01-01 12:00:01" |} ] |}.

Lemma extract_data_records_witness :
  extract_data two_listings
  = [ [ ("name", "Acme GmbH"); ("location", "N/A"); ("revenue", "N/A");
        ("employees", "N/A"); ("timestamp", "2024-01-01 12:00:00") ];
      [ ("name", "Bolt AG"); ("location", "Bonn"); ("revenue", "N/A");
        ("employees", "12"); ("timestamp", "2024-01-01 12:00:01") ]
    ]%string
  /\ Forall2 describes
       [ {| query_name := Ok (Some (Element (Ok "  Acme GmbH 	"%string)));
            query_location := Ok None;
            query_revenue := Ok None;
            query_employees := Ok None;
            now := "2024-01-01 12:00:00" |};
         {| query_name := Ok (Some (Element (Ok "Bolt AG"%string)));
            query_location := Ok (Some (Element (Ok " Bonn"%string)));
            query_revenue := Ok None;
            query_employees := Ok (Some (Element (Ok "12 "%string)));
            now := "2024-01-01 12:00:01" |} ]
       (extract_data two_listings).
Proof.
  split; [reflexivity|]. exact (extract_data_records two_listings).
Defined.

End Extractor.

(** ** Page Counter *)

Section Counter.

Definition all_digits (s : string) : bool :=
  forallb Py.isdigit (list_ascii_of_string s).

Lemma span_digits_digits (s : string) : all_digits (Py.span_digits s) = true.
Proof.
  unfold all_digits. induction s as [|c s IH]; simpl; [reflexivity|].
  destruct (Py.isdigit c) eqn:C; simpl; [now rewrite C | reflexivity].
Qed.

(** What [span_digits] leaves behind does not start with a digit. *)
Lemma span_digits_split (s : string) :
  exists rest, s = (Py.span_digits s ++ rest)%string
    /\ match first_char rest with
       | Some c => Py.isdigit c = false
       | None => True
       end.
Proof.
  induction s as [|c s [rest [E R]]]; simpl.
  - exists EmptyString. now split.
  - destruct (Py.isdigit c) eqn:C.
    + exists rest. split; [simpl; now f_equal | exact R].
    + exists (String c s). now split.
Qed.

Lemma starts_with_split (p s : string) :
  starts_with p s = true -> s = (p ++ drop (String.length p) s)%string.
Proof.
  revert s. induction p as [|a p IH]; intros s; simpl; [reflexivity|].
  destruct s as [|b s]; [discriminate|]. intros H.
  apply andb_true_iff in H as [Hab H].
  apply Ascii.eqb_eq in Hab as ->. f_equal. now apply IH.
Qed.

(** A match of [re_search] is a non-empty run of digits that follows an
    occurrence of [?page=] and is not followed by a digit. *)
Lemma re_search_sound (s ds : string) :
  re_search s = Some ds ->
  ds <> EmptyString /\ all_digits ds = true /\
  exists before rest,
    s = (before ++ "?page=" ++ ds ++ rest)%string
    /\ match first_char rest with
       | Some c => Py.isdigit c = false
       | None => True
       end.
Proof.
  induction s as [|c s IH].
  - cbn. discriminate.
  - change (re_search (String c s))
      with (match match_here (String c s) with
            | Some ds' => Some ds'
            | None => re_search s
            end).
    destruct (match_here (String c s)) as [ds'|] eqn:M.
    + intros E. injection E as ->. unfold match_here in M.
      destruct (starts_with "?page=" (String c s)) eqn:P; [|discriminate].
      apply starts_with_split in P. cbn [String.length] in P.
      pose proof (span_digits_digits (drop 6 (String c s))) as D.
      destruct (span_digits_split (drop 6 (String c s))) as [rest [E R]].
      destruct (Py.span_digits (drop 6 (String c s))) as [|d t] eqn:G;
        [discriminate|].
      injection M as <-. split; [discriminate|]. split; [exact D|].
      exists EmptyString, rest. split; [|exact R].
      rewrite P at 1. rewrite E at 1. reflexivity.
    + intros E. destruct (IH E) as [N [D [before [rest [Es R]]]]].
      split; [exact N|]. split; [exact D|].
      exists (String c before), rest. split; [|exact R].
      simpl. now f_equal.
Qed.

Lemma digit_value_nonneg (c : ascii) : Py.isdigit c = true -> 0 <= Py.digit_value c <= 9.
Proof.
  unfold Py.isdigit, Py.digit_value. intros H.
  apply andb_true_iff in H as [L U].
  apply N.leb_le in L. apply N.leb_le in U. lia.
Qed.

Lemma int_acc_nonneg (s : string) :
  all_digits s = true -> forall acc, 0 <= acc -> 0 <= Py.int_acc s acc.
Proof.
  unfold all_digits.
  induction s as [|c s IH]; cbn [list_ascii_of_string forallb Py.int_acc];
    intros D acc A; [exact A|].
  apply andb_true_iff in D as [C D].
  apply IH; [exact D|]. pose proof (digit_value_nonneg c C). lia.
Qed.

Lemma max_spec (l : list Z) (x : Z) :
  In (Py.max x l) (x :: l) /\ Forall (fun n => n <= Py.max x l) (x :: l).
Proof.
  revert x. induction l as [|y l IH]; intros x; simpl.
  - split; [now left | constructor; [lia | constructor]].
  - destruct (IH (Z.max x y)) as [I F].
    inversion F as [|? ? Fx Fl]; subst. split.
    + destruct I as [I | I]; [|now right; right].
      rewrite <- I.
      destruct (Z.max_spec x y) as [[_ M] | [_ M]]; rewrite M;
        [right; left | left]; reflexivity.
    + constructor; [lia|]. constructor; [lia | exact Fl].
Qed.

(** A link on which the loop of [get_total_pages] raises: the handle or
    the attribute is gone, or the page number has too many digits for
    [int]. *)
Definition href_fault (link : result (option string)) : bool :=
  match link with
  | Raise _ => true
  | Ok None => true
  | Ok (Some href) =>
      match re_search href with
      | Some group1 => (Py.int_max_str_digits <? String.length group1)%nat
      | None => false
      end
  end.

(** The page number a link carries, if its href matches. *)
Definition page_number (link : result (option string)) : list Z :=
  match link with
  | Ok (Some href) =>
      match re_search href with
      | Some group1 => [Py.int_acc group1 0]
      | None => []
      end
  | _ => []
  end.

Definition page_numbers (links : list (result (option string))) : list Z :=
  flat_map page_number links.

Lemma page_numbers_nonneg links : Forall (fun n => 0 <= n) (page_numbers links).
Proof.
  unfold page_numbers. induction links as [|link links IH]; simpl; [constructor|].
  apply Forall_app. split; [|exact IH].
  destruct link as [[href|]|e]; simpl; try constructor.
  destruct (re_search href) as [ds|] eqn:R; constructor; [|constructor].
  apply re_search_sound in R as [_ [D _]]. apply int_acc_nonneg; [exact D | lia].
Qed.

Lemma collect_pages_ok links :
  existsb href_fault links = false ->
  forall pages,
    collect_pages links pages = Ok (pages ++ page_numbers links)%list.
Proof.
  induction links as [|link links IH]; intros F pages.
  - simpl. now rewrite app_nil_r.
  - cbn [existsb] in F. apply orb_false_iff in F as [Fl F].
    cbn [collect_pages page_numbers flat_map].
    destruct link as [[href|]|e]; try discriminate. cbn [bind page_number].
    cbn [href_fault] in Fl. unfold Py.int.
    destruct (re_search href) as [ds|].
    + rewrite Fl. cbn [bind]. rewrite (IH F). cbn [app].
      now rewrite <- app_assoc.
    + cbn [app]. apply (IH F).
Qed.

Lemma collect_pages_fault links :
  existsb href_fault links = true ->
  forall pages, exists e, collect_pages links pages = Raise e.
Proof.
  induction links as [|link links IH]; intros F pages; [discriminate|].
  cbn [existsb] in F. cbn [collect_pages].
  destruct link as [[href|]|e]; cbn [bind]; try (eexists; reflexivity).
  cbn [href_fault] in F. unfold Py.int.
  destruct (re_search href) as [ds|].
  - destruct (Py.int_max_str_digits <? String.length ds)%nat;
      cbn [bind]; [eexists; reflexivity|].
    apply IH. exact F.
  - apply IH. exact F.
Qed.

(** C2, as the code has it. [get_total_pages] never raises and returns
    an integer that is at least 0: 1 when the links cannot be read, when
    reading one of them raises, or when no link matches; otherwise the
    greatest of the page numbers of the matching links, which is 0 when
    every one of them is 0. *)
Theorem get_total_pages_max (d : dom) :
  0 <= get_total_pages d
  /\ match page_links d with
     | Raise _ => get_total_pages d = 1
     | Ok links =>
         if existsb href_fault links then get_total_pages d = 1
         else match page_numbers links with
              | [] => get_total_pages d = 1
              | ns => In (get_total_pages d) ns
                      /\ Forall (fun n => 0 <= n <= get_total_pages d) ns
              end
     end.
Proof.
  unfold get_total_pages, get_total_pages_try.
  destruct (page_links d) as [links|e]; cbn [bind]; [|split; [lia | reflexivity]].
  destruct (existsb href_fault links) eqn:F.
  - destruct (collect_pages_fault links F []) as [e E]. rewrite E.
    cbn [bind]. split; [lia | reflexivity].
  - rewrite (collect_pages_ok links F). cbn [app bind].
    pose proof (page_numbers_nonneg links) as N.
    destruct (page_numbers links) as [|p ps]; [split; [lia | reflexivity]|].
    destruct (max_spec ps p) as [I U].
    assert (B : Forall (fun n => 0 <= n <= Py.max p ps) (p :: ps)).
    { apply Forall_forall. intros n Hn.
      rewrite Forall_forall in N, U. split; [now apply N | now apply U]. }
    split; [|split; [exact I | exact B]].
    inversion B; subst. lia.
Qed.

Example re_search_first_match :
  re_search "/list?page=?page=012&page=9" = Some "012"%string.
Proof. reflexivity. Qed.

Example re_search_no_digits : re_search "/list?page=next" = None.
Proof. reflexivity. Qed.

Example get_total_pages_twelve : get_total_pages (Demo.page 12 4 1) = 12.
Proof. reflexivity. Qed.

Example get_total_pages_no_links : get_total_pages blank = 1.
Proof. reflexivity. Qed.

(** A link that lost its [href] makes [re.search] raise: the count falls
    back to 1 although another link says 3. *)
Example get_total_pages_lost_href :
  get_total_pages {| page_links := Ok [Ok (Some "?page=3"%string); Ok None];
                     companies := Ok [] |} = 1.
Proof. reflexivity. Qed.

(** The page of the counterexample: one pagination link, to page 0. *)
Definition page_zero : dom :=
  {| page_links := Ok [Ok (Some "/list?page=0"%string)]; companies := Ok [] |}.

(** C2, as stated, fails: with a single link to [?page=0] an anchor
    matches and the result is 0, which is not at least 1. *)
Lemma get_total_pages_zero :
  page_numbers [Ok (Some "/list?page=0"%string)] = [0]
  /\ get_total_pages page_zero = 0
  /\ ~ (1 <= get_total_pages page_zero).
Proof.
  split; [reflexivity|]. split; [reflexivity|].
  change (get_total_pages page_zero) with 0. lia.
Qed.

End Counter.

(** ** Incremental Writer *)

Section Writer.

(** The rows [writerows] adds: those of the records up to the first one
    with a key outside [fieldnames]. *)
Fixpoint csv_rows (fieldnames : list string) (data : list record)
  : list row :=
  match data with
  | [] => []
  | d :: data' =>
      match dict_to_list fieldnames d with
      | Ok r => r :: csv_rows fieldnames data'
      | Raise _ => []
      end
  end.

Lemma writerows_appends fieldnames data :
  forall rows,
    fst (writerows fieldnames data rows) = (rows ++ csv_rows fieldnames data)%list.
Proof.
  induction data as [|d data IH]; intros rows; simpl.
  - now rewrite app_nil_r.
  - destruct (dict_to_list fieldnames d) as [r|e]; simpl.
    + rewrite IH. now rewrite <- app_assoc.
    + now rewrite app_nil_r.
Qed.










End Writer.

(** ** Harvest Controller *)

Lemma gotos_app t1 t2 : gotos (t1 ++ t2) = (gotos t1 ++ gotos t2)%list.
Proof. apply flat_map_app. Qed.

Lemma extracts_app t1 t2 : extracts (t1 ++ t2) = (extracts t1 ++ extracts t2)%list.
Proof. apply flat_map_app. Qed.

Lemma saves_app t1 t2 : saves (t1 ++ t2) = (saves t1 ++ saves t2)%list.
Proof. apply flat_map_app. Qed.

Lemma sleeps_app t1 t2 : sleeps (t1 ++ t2) = (sleeps t1 ++ sleeps t2)%list.
Proof. apply flat_map_app. Qed.

Lemma range_In (lo hi p : Z) : In p (Py.range lo hi) <-> lo <= p < hi.
Proof.
  unfold Py.range. rewrite in_map_iff. split.
  - intros [i [<- Hi]]. apply in_seq in Hi. lia.
  - intros H. exists (Z.to_nat (p - lo)). split; [lia|]. apply in_seq. lia.
Qed.

Lemma range_cons (lo hi : Z) :
  lo < hi -> Py.range lo hi = lo :: Py.range (lo + 1) hi.
Proof.
  intros H. unfold Py.range.
  replace (Z.to_nat (hi - lo)) with (S (Z.to_nat (hi - (lo + 1)))) by lia.
  cbn [seq map]. f_equal; [lia|].
  rewrite <- seq_shift, map_map. apply map_ext. intros i. lia.
Qed.

Lemma range_nil (lo hi : Z) : hi <= lo -> Py.range lo hi = [].
Proof.
  intros H. unfold Py.range.
  replace (Z.to_nat (hi - lo)) with O by lia. reflexivity.
Qed.

Lemma range_NoDup (lo hi : Z) : NoDup (Py.range lo hi).
Proof.
  unfold Py.range. apply Injective_map_NoDup; [|apply seq_NoDup].
  intros i j H. lia.
Qed.

Lemma filter_all {X} (c : X -> bool) (l : list X) :
  (forall x, In x l -> c x = true) -> filter c l = l.
Proof.
  induction l as [|x l IH]; simpl; intros H; [reflexivity|].
  rewrite (H x) by now left. f_equal. apply IH. intros y Hy. apply H. now right.
Qed.

(** The pages the loop navigates to are those after the first. *)
Lemma range_after_first (n : Z) :
  filter (fun p => 1 <? p) (Py.range 1 (n + 1)) = Py.range 2 (n + 1).
Proof.
  destruct (Z_lt_le_dec 1 (n + 1)) as [H | H].
  - rewrite range_cons by exact H. cbn [filter Z.ltb Z.compare Z.add Pos.add].
    apply filter_all. intros p Hp. apply range_In in Hp. apply Z.ltb_lt. lia.
  - rewrite !range_nil by lia. reflexivity.
Qed.

Lemma flat_map_if {X Y} (c : X -> bool) (g : X -> Y) (l : list X) :
  flat_map (fun x => if c x then [g x] else []) l = map g (filter c l).
Proof.
  induction l as [|x l IH]; simpl; [reflexivity|].
  destruct (c x); simpl; now rewrite IH.
Qed.

Lemma append_empty (a b : string) :
  (a ++ b)%string = EmptyString -> b = EmptyString.
Proof. destruct a; simpl; [trivial | discriminate]. Qed.

(** A page URL is never empty, so [url or self.url] keeps it. *)
Lemma target_url_page (self : WebScraper) (p : Z) :
  target_url self (Some (page_url self p)) = page_url self p.
Proof.
  unfold target_url. destruct (page_url self p) as [|c s] eqn:E; [|reflexivity].
  exfalso. unfold page_url in E. apply append_empty in E.
  destruct (Py.contains "?" (url self)); discriminate.
Qed.

Lemma target_url_base (self : WebScraper) : target_url self None = url self.
Proof. reflexivity. Qed.

Section Loop.

Variable w : world.
Variable self : WebScraper.
Variable total : Z.

(** The data the loop has when it extracts on [page]: the document of
    the page it navigated to, or the one it started on. *)
Definition shown (m : machine) (page : Z) : dom :=
  if 1 <? page then document (site w (page_url self page)) else current m.

Definition flush_due (page : Z) : bool :=
  (page mod 5 =? 0) || (page =? total).

(** The events of one turn of the loop. *)
Definition page_events (acc : list record) (m : machine) (page : Z)
  : list event :=
  ((if 1 <? page then [Goto (page_url self page)] else []) ++
   if loaded w self page then
     let data := extract_data (shown m page) in
     [Extract page data]
     ++ (if flush_due page then [Save (InLoop page) (acc ++ data)] else [])
     ++ (if page <? total
         then [Sleep page (random_delay self (random w (draws m)))]
         else [])
   else [])%list.

Lemma iteration_trace acc m page :
  trace (snd (iteration w self total (acc, m) page))
  = (trace m ++ page_events acc m page)%list.
Proof.
  unfold iteration, page_events, loaded, shown, flush_due, do_navigate.
  rewrite target_url_page.
  destruct (1 <? page); cbn [fst snd negb];
    [destruct (navigate_to_url (goto (site w (page_url self page))));
       cbn [negb]|];
    try (cbn; now rewrite app_nil_r);
    destruct ((page mod 5 =? 0) || (page =? total));
    destruct (page <? total); cbn; rewrite <- ?app_assoc; reflexivity.
Qed.

(** What is left in [all_data] after one turn. *)
Lemma iteration_all_data acc m page :
  fst (iteration w self total (acc, m) page)
  = if loaded w self page
    then if flush_due page then []
         else (acc ++ extract_data (shown m page))%list
    else acc.
Proof.
  unfold iteration, loaded, shown, flush_due, do_navigate.
  rewrite target_url_page.
  destruct (1 <? page); cbn [fst snd negb];
    [destruct (navigate_to_url (goto (site w (page_url self page))));
       cbn [negb]; [|reflexivity]|];
    destruct ((page mod 5 =? 0) || (page =? total));
    destruct (page <? total); reflexivity.
Qed.

Lemma iteration_disk_unless_saved acc m page :
  saves (page_events acc m page) = [] ->
  disk (snd (iteration w self total (acc, m) page)) = disk m.
Proof.
  unfold iteration, page_events, loaded, shown, flush_due, do_navigate.
  rewrite target_url_page.
  destruct (1 <? page); cbn [fst snd negb];
    [destruct (navigate_to_url (goto (site w (page_url self page))));
       cbn [negb]; [|reflexivity]|];
    destruct ((page mod 5 =? 0) || (page =? total));
    destruct (page <? total); cbn; intros H; try discriminate; reflexivity.
Qed.

Definition loop (pages : list Z) (st : list record * machine)
  : list record * machine :=
  fold_left (iteration w self total) pages st.

Lemma loop_cons page pages acc m :
  loop (page :: pages) (acc, m)
  = loop pages (fst (iteration w self total (acc, m) page),
                snd (iteration w self total (acc, m) page)).
Proof. unfold loop. cbn [fold_left]. now rewrite <- surjective_pairing. Qed.

(** A property kept by every turn holds after the loop. *)
Lemma loop_invariant (P : list record -> machine -> Prop) :
  (forall acc m page,
      P acc m ->
      P (fst (iteration w self total (acc, m) page))
        (snd (iteration w self total (acc, m) page))) ->
  forall pages acc m,
    P acc m -> P (fst (loop pages (acc, m))) (snd (loop pages (acc, m))).
Proof.
  intros Step. induction pages as [|page pages IH]; intros acc m H.
  - exact H.
  - rewrite loop_cons. apply IH, Step, H.
Qed.

(** A reading of the trace that, on the events of a turn, depends on the
    page only, reads the loop page by page. *)
Lemma loop_reading {X} (reading : list event -> list X) (g : Z -> list X) :
  (forall t1 t2, reading (t1 ++ t2) = reading t1 ++ reading t2)%list ->
  (forall acc m page, reading (page_events acc m page) = g page) ->
  forall pages acc m,
    reading (trace (snd (loop pages (acc, m))))
    = (reading (trace m) ++ flat_map g pages)%list.
Proof.
  intros App Ev. induction pages as [|page pages IH]; intros acc m.
  - cbn. now rewrite app_nil_r.
  - rewrite loop_cons, IH, iteration_trace, App, Ev. cbn [flat_map].
    now rewrite app_assoc.
Qed.

Lemma page_events_gotos acc m page :
  gotos (page_events acc m page)
  = if 1 <? page then [page_url self page] else [].
Proof.
  unfold page_events.
  destruct (1 <? page), (loaded w self page), (flush_due page),
    (page <? total); reflexivity.
Qed.

Lemma page_events_extracted acc m page :
  map fst (extracts (page_events acc m page))
  = if loaded w self page then [page] else [].
Proof.
  unfold page_events.
  destruct (1 <? page), (loaded w self page), (flush_due page),
    (page <? total); reflexivity.
Qed.

Lemma page_events_slept acc m page :
  map fst (sleeps (page_events acc m page))
  = if loaded w self page && (page <? total) then [page] else [].
Proof.
  unfold page_events.
  destruct (1 <? page), (loaded w self page), (flush_due page),
    (page <? total); reflexivity.
Qed.

(** The pages of the in-loop saves: the loaded pages on which a flush is
    due. *)
Lemma page_events_saved acc m page :
  map fst (saves (page_events acc m page))
  = if loaded w self page && flush_due page then [InLoop page] else [].
Proof.
  unfold page_events.
  destruct (1 <? page), (loaded w self page), (flush_due page),
    (page <? total); reflexivity.
Qed.

(** The records saved and the records extracted, as streams. *)
Definition saved (t : list event) : list record :=
  List.concat (map snd (saves t)).
Definition extracted (t : list event) : list record :=
  List.concat (map snd (extracts t)).

Lemma saved_app t1 t2 : saved (t1 ++ t2) = (saved t1 ++ saved t2)%list.
Proof. unfold saved. now rewrite saves_app, map_app, concat_app. Qed.

Lemma extracted_app t1 t2 :
  extracted (t1 ++ t2) = (extracted t1 ++ extracted t2)%list.
Proof. unfold extracted. now rewrite extracts_app, map_app, concat_app. Qed.

(** Every record extracted so far is either saved or still in
    [all_data], in the order of extraction. *)
Definition conserved (acc : list record) (m : machine) : Prop :=
  (saved (trace m) ++ acc)%list = extracted (trace m).

Lemma iteration_conserves acc m page :
  conserved acc m ->
  conserved (fst (iteration w self total (acc, m) page))
            (snd (iteration w self total (acc, m) page)).
Proof.
  unfold conserved. intros H.
  rewrite iteration_trace, iteration_all_data, saved_app, extracted_app, <- H.
  unfold page_events, saved, extracted.
  destruct (1 <? page), (loaded w self page), (flush_due page),
    (page <? total); cbn; rewrite ?app_nil_r, <- ?app_assoc; reflexivity.
Qed.

(** Every delay so far is within the configured range. *)
Definition delays_within (m : machine) : Prop :=
  Forall (fun d => (fst (delay_range self) <= d <= snd (delay_range self))%Q)
         (map snd (sleeps (trace m))).

Lemma uniform_within (a b u : Q) :
  (a <= b)%Q -> (0 <= u <= 1)%Q -> (a <= Py.uniform a b u <= b)%Q.
Proof. unfold Py.uniform. intros H [L U]. split; nra. Qed.

Lemma iteration_delays_within acc m page :
  (fst (delay_range self) <= snd (delay_range self))%Q ->
  (forall i, 0 <= random w i <= 1)%Q ->
  delays_within m ->
  delays_within (snd (iteration w self total (acc, m) page)).
Proof.
  unfold delays_within. intros R U H.
  rewrite iteration_trace, sleeps_app, map_app. apply Forall_app.
  split; [exact H|]. unfold page_events.
  destruct (1 <? page), (loaded w self page), (flush_due page),
    (page <? total); cbn; repeat constructor;
    apply uniform_within; auto.
Qed.

End Loop.

Section Run.

Variable w : world.
Variable self : WebScraper.
Variable max_pages : option Z.
Variable f : destination.

(** The machine once the browser is up and the first navigation is
    done. *)
Definition started : machine :=
  {| current := document (site w (url self)); disk := f; draws := 0;
     trace := [Launch; Goto (url self)]; raised := None |}.

(** Lines 171-172. *)
Definition finish (st : list record * machine) : machine :=
  match fst st with
  | [] => snd st
  | _ :: _ => do_save AfterLoop (fst st) (snd st)
  end.

Definition pages_of_run : list Z :=
  Py.range 1 (total_pages w self max_pages + 1).

Lemma run_first_failed :
  navigate_to_url (goto (site w (url self))) = false ->
  run w self max_pages f = emit Close started.
Proof. unfold run, do_navigate. cbn. now intros ->. Qed.

Lemma run_first_loaded :
  navigate_to_url (goto (site w (url self))) = true ->
  run w self max_pages f
  = emit Close
      (finish (loop w self (total_pages w self max_pages) pages_of_run
                    ([], started))).
Proof.
  unfold run, do_navigate. cbn. intros ->.
  unfold finish, loop, pages_of_run, total_pages, started.
  destruct (fold_left _ _ _) as [acc m]. now destruct acc.
Qed.

Lemma finish_trace st :
  trace (finish st)
  = (trace (snd st)
     ++ match fst st with [] => [] | _ :: _ => [Save AfterLoop (fst st)] end)%list.
Proof.
  unfold finish. destruct (fst st); cbn; [now rewrite app_nil_r | reflexivity].
Qed.

End Run.




(** A turn of the loop that saves leaves [all_data] empty. *)
Lemma flush_resets w self total acc m page :
  saves (page_events w self total acc m page) = []
  \/ fst (iteration w self total (acc, m) page) = [].
Proof.
  rewrite iteration_all_data. unfold page_events.
  destruct (1 <? page), (loaded w self page), (flush_due total page),
    (page <? total); cbn; auto.
Qed.

(** C10. In every run the batches handed to [save_to_csv], one after the
    other, make up exactly the stream of the records extracted, in
    order: each batch is the segment that follows the previous batch,
    and no record is handed over twice. A turn of the loop that saves
    leaves the accumulator empty. *)
Theorem batches_partition_stream
    (w : world) (self : WebScraper) (max_pages : option Z) (f : file) :
  saved (trace (run w self max_pages f))
  = extracted (trace (run w self max_pages f))
  /\ forall total acc m page,
       saves (page_events w self total acc m page) = []
       \/ fst (iteration w self total (acc, m) page) = [].
Proof.
  split; [|apply flush_resets].
  destruct (navigate_to_url (goto (site w (url self)))) eqn:N.
  - rewrite (run_first_loaded w self max_pages f N).
    pose proof (loop_invariant w self (total_pages w self max_pages)
                  (conserved)
                  (iteration_conserves w self (total_pages w self max_pages))
                  (pages_of_run w self max_pages) [] (started w self f)
                  eq_refl) as C.
    unfold conserved in C. cbn [emit trace].
    rewrite saved_app, extracted_app, finish_trace, saved_app, extracted_app.
    destruct (loop w self _ _ _) as [acc m]. cbn [fst snd] in *.
    rewrite <- C. destruct acc; cbn; now rewrite ?app_nil_r.
  - now rewrite (run_first_failed w self max_pages f N).
Qed.

(** The navigations and the delays of a trace, in order. *)
Definition pacing (t : list event) : list (string + Z) :=
  flat_map (fun e => match e with
                     | Goto u => [inl u]
                     | Sleep p _ => [inr p]
                     | _ => []
                     end) t.

Lemma pacing_app t1 t2 : pacing (t1 ++ t2) = (pacing t1 ++ pacing t2)%list.
Proof. apply flat_map_app. Qed.

(** What the loop does about [page], as far as pacing goes: go to its
    URL if it is not the first, and sleep if it got loaded and is not
    the last. *)
Definition page_pacing (w : world) (self : WebScraper) (total page : Z)
  : list (string + Z) :=
  ((if 1 <? page then [inl (page_url self page)] else [])
   ++ (if loaded w self page && (page <? total) then [inr page] else []))%list.

Lemma page_events_pacing w self total acc m page :
  pacing (page_events w self total acc m page)
  = page_pacing w self total page.
Proof.
  unfold page_events, page_pacing.
  destruct (1 <? page), (loaded w self page), (flush_due total page),
    (page <? total); reflexivity.
Qed.

Lemma finish_adds_no_delay st : sleeps (trace (finish st)) = sleeps (trace (snd st)).
Proof.
  rewrite finish_trace, sleeps_app. destruct (fst st); cbn; now rewrite app_nil_r.
Qed.

Lemma finish_adds_no_pacing st : pacing (trace (finish st)) = pacing (trace (snd st)).
Proof.
  rewrite finish_trace, pacing_app. destruct (fst st); cbn; now rewrite app_nil_r.
Qed.

(** Three pages, one company each; the navigation to page 2 times
    out. *)
Definition page_2_down : world := Demo.world_of 3 1 [2].


(** C5, as stated, fails: page 2 of 3 is skipped for a navigation
    failure and is not the last page, yet no delay follows it: the only
    delay of the run is the one after page 1, and the navigation to
    page 3 follows that to page 2 directly. *)
Lemma no_delay_after_skipped_page :
  total_pages page_2_down Demo.scraper None = 3
  /\ loaded page_2_down Demo.scraper 2 = false
  /\ pacing (trace (run page_2_down Demo.scraper None Missing))
     = [inl "https://x.test/list"; inr 1;
        inl "https://x.test/list?page=2";
        inl "https://x.test/list?page=3"]%string
  /\ ~ In 2 (map fst (sleeps (trace (run page_2_down Demo.scraper None
                                         Missing)))).
Proof.
  split; [reflexivity|]. split; [reflexivity|]. split; [reflexivity|].
  intros H. vm_compute in H. destruct H as [H | H]; [discriminate | exact H].
Qed.

(** C8. Line 151 builds the URL of page [k] from the base URL, [&page=]
    when the base URL has a [?] and [?page=] otherwise, and [k] in
    decimal. In a run whose first navigation succeeds, the loop goes
    once to the URL of every page from 2 to the last, in order, whatever
    the outcomes, and it extracts from exactly the pages that got
    loaded: a page whose navigation fails is attempted once and left. *)
Theorem page_urls_and_skips
    (w : world) (self : WebScraper) (max_pages : option Z) (f : file) :
  navigate_to_url (goto (site w (url self))) = true ->
  let n := total_pages w self max_pages in
  let t := trace (run w self max_pages f) in
  (forall k, page_url self k
             = (url self ++ (if Py.contains "?" (url self)
                             then "&page=" else "?page=") ++ Py.str k)%string)
  /\ gotos t = url self :: map (page_url self) (Py.range 2 (n + 1))
  /\ map fst (extracts t) = filter (loaded w self) (Py.range 1 (n + 1)).
Proof.
  intros N n t. subst t. rewrite (run_first_loaded w self max_pages f N).
  fold n. cbn [emit trace]. split; [|split].
  - intros k. unfold page_url. now destruct (Py.contains "?" (url self)).
  - rewrite gotos_app, finish_trace, gotos_app.
    rewrite (loop_reading w self n gotos
               (fun p => if 1 <? p then [page_url self p] else [])).
    + rewrite (flat_map_if (fun p => 1 <? p) (page_url self)).
      unfold pages_of_run. fold n. rewrite range_after_first.
      destruct (fst _); cbn; now rewrite !app_nil_r.
    + apply gotos_app.
    + intros. apply page_events_gotos.
  - rewrite extracts_app, finish_trace, extracts_app, !map_app.
    rewrite (loop_reading w self n (fun t => map fst (extracts t))
               (fun p => if loaded w self p then [p] else [])).
    + rewrite (flat_map_if (loaded w self) (fun p => p)), map_id.
      destruct (fst _); cbn; now rewrite !app_nil_r.
    + intros. now rewrite extracts_app, map_app.
    + intros. apply page_events_extracted.
Qed.

Lemma page_urls_and_skips_witness :
  gotos (trace (run page_2_down Demo.scraper None Missing))
    = ["https://x.test/list"; "https://x.test/list?page=2";
       "https://x.test/list?page=3"]%string
  /\ map fst (extracts (trace (run page_2_down Demo.scraper None Missing)))
     = [1; 3].
Proof.
  destruct (page_urls_and_skips page_2_down Demo.scraper None Missing eq_refl)
    as [_ [G E]].
  split; [exact G | exact E].
Defined.

(** The URLs of the scenario: a base URL without and with a query
    string. *)
Example page_url_plain :
  map (page_url {| url := "https://x.test/list"; output_file := "out.csv";
                   delay_range := (1 # 1, 3 # 1) |}) [2; 3]
  = ["https://x.test/list?page=2"; "https://x.test/list?page=3"]%string.
Proof. reflexivity. Qed.

Example page_url_query :
  page_url {| url := "https://x.test/list?region=de"; output_file := "out.csv";
              delay_range := (1 # 1, 3 # 1) |} 2
  = "https://x.test/list?region=de&page=2"%string.
Proof. reflexivity. Qed.

(** ** Runs without navigation failure *)

Section Harvest.

Variable w : world.
Variable self : WebScraper.
Variable total : Z.

(** The extractions and the saves of the loop over [pages] when every
    page gets loaded, and what is left in [all_data]. *)
Fixpoint harvest (pages : list Z) (acc : list record)
  : list event * list record :=
  match pages with
  | [] => ([], acc)
  | p :: ps =>
      let data := records_of w self p in
      if flush_due total p
      then (Extract p data :: Save (InLoop p) (acc ++ data)
              :: fst (harvest ps []),
            snd (harvest ps []))
      else (Extract p data :: fst (harvest ps (acc ++ data)),
            snd (harvest ps (acc ++ data)))
  end.

Lemma turn_harvest acc m p :
  loaded w self p = true ->
  shown w self m p = document (site w (address self p)) ->
  filter extract_or_save (page_events w self total acc m p)
    = fst (harvest [p] acc)
  /\ fst (iteration w self total (acc, m) p) = snd (harvest [p] acc).
Proof.
  intros L S. rewrite iteration_all_data. unfold page_events.
  rewrite L, S. fold (records_of w self p). cbn [harvest].
  destruct (1 <? p), (flush_due total p), (p <? total); cbn; now split.
Qed.

Lemma harvest_cons p ps acc :
  harvest (p :: ps) acc
  = ((fst (harvest [p] acc) ++ fst (harvest ps (snd (harvest [p] acc))))%list,
     snd (harvest ps (snd (harvest [p] acc)))).
Proof. cbn [harvest]. destruct (flush_due total p); reflexivity. Qed.

Lemma loop_harvest pages :
  (forall p, In p pages -> 1 < p /\ loaded w self p = true) ->
  forall acc m,
    filter extract_or_save (trace (snd (loop w self total pages (acc, m))))
      = (filter extract_or_save (trace m) ++ fst (harvest pages acc))%list
    /\ fst (loop w self total pages (acc, m)) = snd (harvest pages acc).
Proof.
  induction pages as [|p ps IH]; intros H acc m.
  - cbn. now rewrite app_nil_r.
  - destruct (H p (or_introl eq_refl)) as [P L].
    assert (S : shown w self m p = document (site w (address self p))).
    { unfold shown, address. now rewrite (proj2 (Z.ltb_lt 1 p) P). }
    destruct (turn_harvest acc m p L S) as [E A].
    rewrite loop_cons, harvest_cons.
    destruct (IH (fun q Hq => H q (or_intror Hq))
                 (fst (iteration w self total (acc, m) p))
                 (snd (iteration w self total (acc, m) p))) as [E' A'].
    rewrite E', A', iteration_trace, filter_app, E, A. cbn [fst snd].
    now rewrite app_assoc.
Qed.

End Harvest.

Lemma saves_of_filter t : saves (filter extract_or_save t) = saves t.
Proof.
  induction t as [|e t IH]; [reflexivity|].
  destruct e as [|u|page data|at_ batch|page d|];
    cbn [filter extract_or_save]; try exact IH.
  change (saves (Save at_ batch :: filter extract_or_save t))
    with ((at_, batch) :: saves (filter extract_or_save t)).
  now rewrite IH.
Qed.

(** The records of several pages, in order. *)
Definition batch (w : world) (self : WebScraper) (pages : list Z)
  : list record :=
  flat_map (records_of w self) pages.

(** C3. A run over 12 pages that all get loaded, with 4 records
    extracted from each, calls [save_to_csv] 3 times: after the
    extraction of page 5 with the 20 records of pages 1 to 5, after that
    of page 10 with the 20 records of pages 6 to 10, and after that of
    page 12 with the 8 records of pages 11 and 12. *)
Theorem flush_cadence_12_pages
    (w : world) (self : WebScraper) (max_pages : option Z) (f : file) :
  navigate_to_url (goto (site w (url self))) = true ->
  total_pages w self max_pages = 12 ->
  (forall p, 1 <= p <= 12 -> loaded w self p = true) ->
  (forall p, 1 <= p <= 12 -> List.length (records_of w self p) = 4%nat) ->
  let t := trace (run w self max_pages f) in
  saves t = [ (InLoop 5, batch w self [1; 2; 3; 4; 5]);
              (InLoop 10, batch w self [6; 7; 8; 9; 10]);
              (InLoop 12, batch w self [11; 12]) ]
  /\ map (fun b => List.length (snd b)) (saves t) = [20; 20; 8]%nat
  /\ map (fun e => match e with
                   | Extract p _ => inl p
                   | Save s _ => inr s
                   | _ => inl 0
                   end) (filter extract_or_save t)
     = [ inl 1; inl 2; inl 3; inl 4; inl 5; inr (InLoop 5);
         inl 6; inl 7; inl 8; inl 9; inl 10; inr (InLoop 10);
         inl 11; inl 12; inr (InLoop 12) ].
Proof.
  intros N T L R t.
  assert (E : filter extract_or_save t
              = fst (harvest w self 12 [1; 2; 3; 4; 5; 6; 7; 8; 9; 10; 11; 12] [])).
  { subst t. rewrite (run_first_loaded w self max_pages f N).
    unfold pages_of_run. rewrite T.
    change (Py.range 1 (12 + 1)) with (1 :: Py.range 2 13).
    rewrite loop_cons.
    destruct (turn_harvest w self 12 [] (started w self f) 1
                (L 1 ltac:(lia)) eq_refl) as [E1 A1].
    assert (L' : forall p, In p (Py.range 2 13) ->
                           1 < p /\ loaded w self p = true).
    { intros p Hp. apply range_In in Hp. split; [lia | apply L; lia]. }
    destruct (loop_harvest w self 12 (Py.range 2 13) L'
                (fst (iteration w self 12 ([], started w self f) 1))
                (snd (iteration w self 12 ([], started w self f) 1)))
      as [E2 A2].
    cbn [emit trace]. rewrite filter_app, finish_trace, filter_app.
    rewrite A2, E2, iteration_trace, filter_app, E1, A1.
    reflexivity. }
  assert (S : saves t = saves (fst (harvest w self 12
                [1; 2; 3; 4; 5; 6; 7; 8; 9; 10; 11; 12] [])))
    by now rewrite <- E, saves_of_filter.
  split; [|split].
  - rewrite S. cbn. unfold batch. cbn [flat_map].
    now rewrite <- !app_assoc, !app_nil_r.
  - rewrite S. cbn. rewrite !List.length_app, !R by lia. reflexivity.
  - rewrite E. reflexivity.
Qed.

Ltac each_page p H :=
  let E := fresh in
  assert (E : p = 1 \/ p = 2 \/ p = 3 \/ p = 4 \/ p = 5 \/ p = 6 \/ p = 7
              \/ p = 8 \/ p = 9 \/ p = 10 \/ p = 11 \/ p = 12) by lia;
  clear H; repeat destruct E as [E | E]; subst p; vm_compute; reflexivity.

(** Twelve pages of four companies, all reachable. *)
Definition twelve_pages : world := Demo.world_of 12 4 [].

Lemma flush_cadence_12_pages_witness :
  map (fun b => (fst b, List.length (snd b)))
      (saves (trace (run twelve_pages Demo.scraper None Missing)))
  = [(InLoop 5, 20%nat); (InLoop 10, 20%nat); (InLoop 12, 8%nat)].
Proof.
  assert (L : forall p, 1 <= p <= 12 -> loaded twelve_pages Demo.scraper p = true)
    by (intros p H; each_page p H).
  assert (R : forall p, 1 <= p <= 12 ->
                List.length (records_of twelve_pages Demo.scraper p) = 4%nat)
    by (intros p H; each_page p H).
  destruct (flush_cadence_12_pages twelve_pages Demo.scraper None Missing
              eq_refl eq_refl L R) as [S _].
  rewrite S. vm_compute. reflexivity.
Defined.

(** ** What the output file holds after a run *)

(** In mode ['w'] the rows the file held are gone. *)
Lemma save_overwrites (first : record) (rest : list record) (rows : list row) :
  fst (save_to_csv (first :: rest) W (Regular rows))
  = Regular (keys first :: csv_rows (keys first) (first :: rest)).
Proof.
  unfold save_to_csv, save_to_csv_try. cbn [header_wanted open_write].
  match goal with
  | |- context [writerows ?fn ?data ?rows0] =>
      pose proof (writerows_appends fn data rows0) as E;
      destruct (writerows fn data rows0) as [rows' [u|e]]
  end; exact (f_equal (fun r => At (Regular r)) E).
Qed.

(** Six pages of one company, all reachable. *)
Definition six_pages : world := Demo.world_of 6 1 [].

(** C1 does not hold of the code. [run] calls [save_to_csv] without a
    mode, so every flush opens the file with ['w']: on six pages of one
    record each, with no navigation failure, six records are extracted
    and saved in two batches (after pages 5 and 6), and the file ends
    with the header and the record of page 6 only. *)
Theorem second_flush_discards_first :
  let m := run six_pages Demo.scraper None Missing in
  map (get "name") (extracted (trace m))
    = [Some "Co 1.1"; Some "Co 2.1"; Some "Co 3.1"; Some "Co 4.1";
       Some "Co 5.1"; Some "Co 6.1"]%string
  /\ map (fun b => (fst b, List.length (snd b))) (saves (trace m))
     = [(InLoop 5, 5%nat); (InLoop 6, 1%nat)]
  /\ disk m
     = Regular [ ["name"; "location"; "revenue"; "employees"; "timestamp"];
                 ["Co 6.1"; "Berlin"; "1M"; "N/A"; "2024-01-01 12:00:00"]
               ]%string.
Proof. vm_compute. repeat split. Qed.

(** * Further properties *)

(** ** save_to_csv: result, shape of the file, composition *)

Section WriterMore.


















End WriterMore.

(** ** extract_data and save_to_csv together *)

Section ExtractThenSave.

Definition field_names : list string :=
  ["name"; "location"; "revenue"; "employees"; "timestamp"]%string.







End ExtractThenSave.

(** ** The pattern of get_total_pages *)

Section Pattern.

Lemma span_digits_empty (u : string) :
  Py.span_digits u = EmptyString
  <-> forall c rest, u = String c rest -> Py.isdigit c = false.
Proof.
  destruct u as [|c u]; cbn [Py.span_digits].
  - split; [intros _ c rest H; discriminate | reflexivity].
  - destruct (Py.isdigit c) eqn:D.
    + split; [discriminate|]. intros H.
      specialize (H c u eq_refl). congruence.
    + split; [|reflexivity]. intros _ c' rest H. now injection H as <- _.
Qed.

Lemma starts_with_append (p s : string) : starts_with p (p ++ s) = true.
Proof.
  induction p as [|a p IH]; cbn; [reflexivity|].
  now rewrite Ascii.eqb_refl, IH.
Qed.

Lemma match_here_none (s : string) :
  match_here s = None
  <-> forall c rest, s = ("?page=" ++ String c rest)%string ->
                     Py.isdigit c = false.
Proof.
  unfold match_here. destruct (starts_with "?page=" s) eqn:P.
  - apply starts_with_split in P. cbn [String.length] in P.
    pose proof (span_digits_empty (drop 6 s)) as E.
    destruct (Py.span_digits (drop 6 s)) as [|d t].
    + split; [|reflexivity]. intros _ c rest H.
      apply (proj1 E eq_refl c rest). rewrite H. reflexivity.
    + split; [discriminate|]. intros H. exfalso.
      assert (N : forall c rest, drop 6 s = String c rest -> Py.isdigit c = false).
      { intros c rest D. apply (H c rest). rewrite P at 1. now rewrite D. }
      apply E in N. discriminate.
  - split; [|reflexivity]. intros _ c rest H.
    rewrite H in P.
    now rewrite (starts_with_append "?page=" (String c rest)) in P.
Qed.

Lemma re_search_unfold (s : string) :
  re_search s = match match_here s with
                | Some ds => Some ds
                | None => match s with
                          | EmptyString => None
                          | String _ s' => re_search s'
                          end
                end.
Proof. destruct s; reflexivity. Qed.

(** X6. [re_search] finds nothing exactly when no [?page=] in the string is
    followed by a digit. *)
Theorem re_search_none_iff (s : string) :
  re_search s = None
  <-> forall before c rest,
        s = (before ++ "?page=" ++ String c rest)%string ->
        Py.isdigit c = false.
Proof.
  induction s as [|a s IH]; rewrite re_search_unfold.
  - split; [|reflexivity]. intros _ [|b before] c rest H; discriminate H.
  - pose proof (match_here_none (String a s)) as M.
    destruct (match_here (String a s)) as [ds|].
    + split; [discriminate|]. intros H. apply M.
      intros c rest E. exact (H EmptyString c rest E).
    + rewrite IH. split.
      * intros H [|b before] c rest E.
        -- exact (proj1 M eq_refl c rest E).
        -- injection E as _ E. exact (H before c rest E).
      * intros H before c rest E. apply (H (String a before) c rest).
        cbn. now rewrite E.
Qed.

Lemma re_search_none_iff_witness :
  re_search "/list?page=&sort=7" = None.
Proof.
  apply (proj2 (re_search_none_iff "/list?page=&sort=7")).
  intros before c rest E.
  repeat (destruct before as [|? before];
          [try discriminate E; injection E as <- _; reflexivity
          | injection E as _ E]).
  destruct before; discriminate E.
Defined.

End Pattern.

(** ** The URLs the loop builds, as seen by the page counter *)

Section UrlRoundTrip.

Lemma uint_string_digits (d : Decimal.uint) :
  all_digits (NilEmpty.string_of_uint d) = true.
Proof.
  unfold all_digits. induction d; cbn [NilEmpty.string_of_uint]; try reflexivity;
    cbn [list_ascii_of_string forallb]; rewrite IHd; reflexivity.
Qed.

Ltac digit_arith :=
  match goal with
  | |- context [Py.digit_value ?c] =>
      let v := eval vm_compute in (Py.digit_value c) in
      change (Py.digit_value c) with v
  end; lia.

Lemma int_acc_uint_acc (d : Decimal.uint) :
  forall p, Py.int_acc (NilEmpty.string_of_uint d) (Zpos p)
            = Zpos (Pos.of_uint_acc d p).
Proof.
  induction d; intros p;
    cbn [NilEmpty.string_of_uint Py.int_acc Pos.of_uint_acc];
    try reflexivity;
    match goal with
    | |- Py.int_acc _ ?a = Zpos (Pos.of_uint_acc _ ?q) =>
        replace a with (Zpos q) by digit_arith
    end; apply IHd.
Qed.

Lemma int_acc_uint (d : Decimal.uint) :
  Py.int_acc (NilEmpty.string_of_uint d) 0 = Z.of_N (Pos.of_uint d).
Proof.
  induction d; cbn [NilEmpty.string_of_uint Py.int_acc Pos.of_uint];
    try reflexivity;
    try (match goal with
         | |- Py.int_acc _ ?a = Z.of_N (N.pos (Pos.of_uint_acc _ ?q)) =>
             replace a with (Zpos q) by digit_arith
         end; apply int_acc_uint_acc).
  replace (10 * 0 + Py.digit_value "0") with 0
    by digit_arith.
  exact IHd.
Qed.

Lemma string_of_uint_nonnil (d : Decimal.uint) :
  d <> Decimal.Nil ->
  NilZero.string_of_uint d = NilEmpty.string_of_uint d
  /\ NilEmpty.string_of_uint d <> EmptyString.
Proof. destruct d; intros H; [now contradiction H|..]; now split. Qed.

(** [str] of a natural number is a non-empty run of digits that reads
    back as the number. *)
Lemma str_digits (n : Z) :
  0 <= n ->
  Py.str n <> EmptyString /\ all_digits (Py.str n) = true
  /\ Py.int_acc (Py.str n) 0 = n.
Proof.
  intros H. unfold Py.str. destruct n as [|p|p]; [| |lia].
  - repeat split. discriminate.
  - cbn [Z.to_int NilZero.string_of_int].
    destruct (string_of_uint_nonnil _ (Unsigned.to_uint_nonnil p)) as [E N].
    rewrite E. split; [exact N|]. split; [apply uint_string_digits|].
    now rewrite int_acc_uint, Unsigned.of_to.
Qed.

Lemma span_digits_all (ds : string) :
  all_digits ds = true -> Py.span_digits ds = ds.
Proof.
  unfold all_digits. induction ds as [|c ds IH];
    cbn [list_ascii_of_string forallb Py.span_digits]; [reflexivity|].
  intros H. apply andb_true_iff in H as [C D]. now rewrite C, IH.
Qed.

Lemma re_search_skip (base t : string) :
  Py.contains "?" base = false -> re_search (base ++ t) = re_search t.
Proof.
  induction base as [|c base IH]; cbn [Py.contains append]; [reflexivity|].
  destruct (Ascii.eqb "?" c) eqn:E; [discriminate|]. intros H.
  rewrite re_search_unfold. unfold match_here. cbn [starts_with].
  rewrite E. cbn [andb]. now apply IH.
Qed.

Lemma re_search_here (ds : string) :
  ds <> EmptyString -> all_digits ds = true ->
  re_search ("?page=" ++ ds) = Some ds.
Proof.
  intros N D. rewrite re_search_unfold. unfold match_here.
  rewrite starts_with_append. cbn [append drop].
  rewrite (span_digits_all ds D). destruct ds; [now contradiction N | reflexivity].
Qed.

(** X9. For a base URL without query string, the page counter reads back
    from the URL the loop builds for page [k] exactly [k]: a document
    whose only pagination link is that URL counts [k] pages (as long as
    [k] is within the digits [int] accepts). *)
Theorem counter_reads_page_url (self : WebScraper) (k : Z) (cs : result (list listing)) :
  Py.contains "?" (url self) = false ->
  0 <= k ->
  (String.length (Py.str k) <= Py.int_max_str_digits)%nat ->
  re_search (page_url self k) = Some (Py.str k)
  /\ get_total_pages {| page_links := Ok [Ok (Some (page_url self k))];
                        companies := cs |} = k.
Proof.
  intros Q K L. destruct (str_digits k K) as [N [D I]].
  assert (R : re_search (page_url self k) = Some (Py.str k)).
  { unfold page_url. rewrite Q. rewrite (re_search_skip _ _ Q).
    apply (re_search_here _ N D). }
  split; [exact R|].
  unfold get_total_pages, get_total_pages_try.
  cbn [page_links bind collect_pages]. rewrite R. unfold Py.int.
  apply Nat.leb_le in L. rewrite Nat.ltb_antisym, L.
  cbn [negb bind collect_pages app Py.max]. exact I.
Qed.

Lemma counter_reads_page_url_witness :
  get_total_pages
    {| page_links := Ok [Ok (Some (page_url Demo.scraper 37))];
       companies := Ok [] |} = 37.
Proof.
  apply (counter_reads_page_url Demo.scraper 37 (Ok []));
    [reflexivity | lia | vm_compute; lia].
Defined.

Lemma uint_string_no_question (d : Decimal.uint) :
  Py.contains "?" (NilEmpty.string_of_uint d) = false.
Proof. induction d; cbn; auto. Qed.

Lemma str_no_question (n : Z) : Py.contains "?" (Py.str n) = false.
Proof.
  unfold Py.str.
  destruct n as [|p|p]; cbn [Z.to_int NilZero.string_of_int]; [reflexivity| |];
    destruct (string_of_uint_nonnil _ (Unsigned.to_uint_nonnil p)) as [E _];
    rewrite E; [|cbn [Py.contains]; cbn [Ascii.eqb Bool.eqb]];
    apply uint_string_no_question.
Qed.

Lemma contains_append (c : ascii) (a b : string) :
  Py.contains c (a ++ b) = Py.contains c a || Py.contains c b.
Proof.
  induction a as [|d a IH]; cbn [append Py.contains orb]; [reflexivity|].
  destruct (Ascii.eqb c d); [reflexivity | exact IH].
Qed.

Lemma re_search_none_without_question (t : string) :
  Py.contains "?" t = false -> re_search t = None.
Proof.
  induction t as [|c t IH]; [reflexivity|]. cbn [Py.contains].
  destruct (Ascii.eqb "?" c) eqn:E; [discriminate|]. intros H.
  rewrite re_search_unfold. unfold match_here. cbn [starts_with].
  rewrite E. cbn [andb]. now apply IH.
Qed.

Lemma span_digits_amp (u t : string) :
  Py.span_digits (u ++ String "&" t) = Py.span_digits u.
Proof.
  induction u as [|c u IH]; cbn [append Py.span_digits]; [reflexivity|].
  destruct (Py.isdigit c); [now rewrite IH | reflexivity].
Qed.

(** An ampersand and what follows it change nothing to a match that
    starts before it. *)
Lemma match_here_amp (s t : string) :
  match_here (s ++ String "&" t) = match_here s.
Proof.
  unfold match_here.
  destruct s as [|c1 [|c2 [|c3 [|c4 [|c5 [|c6 s]]]]]];
    cbn [append starts_with drop];
    rewrite ?span_digits_amp; try reflexivity;
    cbn [Ascii.eqb Bool.eqb andb]; rewrite ?andb_false_r; reflexivity.
Qed.

Lemma re_search_amp (base t : string) :
  Py.contains "?" t = false ->
  re_search (base ++ String "&" t) = re_search base.
Proof.
  intros H. induction base as [|c base IH].
  - cbn [append]. rewrite re_search_none_without_question; [reflexivity|].
    cbn [Py.contains]. cbn [Ascii.eqb Bool.eqb]. exact H.
  - rewrite (re_search_unfold (String c base)).
    rewrite re_search_unfold, match_here_amp.
    destruct (match_here (String c base)); [reflexivity|].
    cbn [append]. exact IH.
Qed.

(** X10. For a base URL with a query string the loop appends [&page=k],
    which the pattern of the page counter, [\?page=(\d+)], does not
    see: the counter finds in the page URL what it finds in the base
    URL, and so nothing when the base URL has no [?page=] of its own. *)
Theorem counter_blind_to_ampersand_page (self : WebScraper) (k : Z) :
  Py.contains "?" (url self) = true ->
  re_search (page_url self k) = re_search (url self).
Proof.
  intros Q. unfold page_url. rewrite Q.
  change ("&" ++ "page=" ++ Py.str k)%string
    with (String "&" ("page=" ++ Py.str k)).
  apply re_search_amp. rewrite contains_append, str_no_question. reflexivity.
Qed.

Lemma counter_blind_to_ampersand_page_witness :
  re_search "https://x.test/list?region=de&page=2" = None
  /\ get_total_pages
       {| page_links := Ok [Ok (Some "https://x.test/list?region=de&page=2"%string)];
          companies := Ok [] |} = 1.
Proof.
  pose proof (counter_blind_to_ampersand_page
                {| url := "https://x.test/list?region=de";
                   output_file := "out.csv";
                   delay_range := (1 # 1, 3 # 1) |} 2 eq_refl) as H.
  split; [exact H|].
  unfold get_total_pages, get_total_pages_try. cbn [page_links bind collect_pages].
  change (re_search "https://x.test/list?region=de&page=2")
    with (re_search (page_url {| url := "https://x.test/list?region=de";
                                 output_file := "out.csv";
                                 delay_range := (1 # 1, 3 # 1) |} 2)).
  rewrite H. reflexivity.
Defined.

End UrlRoundTrip.

(** ** run: the browser, the file and the random numbers *)

Section RunMore.

Variable w : world.
Variable self : WebScraper.

(** One call of [save_to_csv] by [run], on the file. *)
Definition overwrite (f : destination) (batch : list record)
  : destination :=
  fst (save_to_csv batch W f).

Ltac turn_cases total page :=
  unfold iteration, page_events, loaded, shown, flush_due, do_navigate,
    do_save, do_random_delay, emit;
  rewrite ?target_url_page;
  destruct (1 <? page); cbn [fst snd negb];
  [destruct (navigate_to_url (goto (site w (page_url self page))));
   cbn [negb]|];
  try destruct ((page mod 5 =? 0) || (page =? total));
  try destruct (page <? total);
  cbn [fst snd current disk draws trace].

Lemma iteration_disk total acc m page :
  disk (snd (iteration w self total (acc, m) page))
  = fold_left overwrite
      (map snd (saves (page_events w self total acc m page))) (disk m).
Proof. turn_cases total page; reflexivity. Qed.

Lemma iteration_draws total acc m page :
  draws (snd (iteration w self total (acc, m) page))
  = (draws m + List.length (sleeps (page_events w self total acc m page)))%nat.
Proof. turn_cases total page; cbn; lia. Qed.

Lemma iteration_delays total acc m page :
  map snd (sleeps (page_events w self total acc m page))
  = map (fun i => random_delay self (random w i))
        (seq (draws m)
             (List.length (sleeps (page_events w self total acc m page)))).
Proof. turn_cases total page; reflexivity. Qed.

(** Neither the browser's launch nor its closing. *)
Definition in_session (e : event) : bool :=
  match e with
  | Launch | Close => false
  | _ => true
  end.

Lemma page_events_in_session total acc m page :
  forallb in_session (page_events w self total acc m page) = true.
Proof. turn_cases total page; reflexivity. Qed.

Lemma iteration_ignores_disk total acc m m' page :
  current m = current m' -> draws m = draws m' -> trace m = trace m' ->
  fst (iteration w self total (acc, m) page)
    = fst (iteration w self total (acc, m') page)
  /\ current (snd (iteration w self total (acc, m) page))
     = current (snd (iteration w self total (acc, m') page))
  /\ draws (snd (iteration w self total (acc, m) page))
     = draws (snd (iteration w self total (acc, m') page))
  /\ trace (snd (iteration w self total (acc, m) page))
     = trace (snd (iteration w self total (acc, m') page)).
Proof.
  intros C D T. turn_cases total page; rewrite ?C, ?D, ?T; repeat split.
Qed.

Lemma loop_ignores_disk total pages :
  forall acc m m',
    current m = current m' -> draws m = draws m' -> trace m = trace m' ->
    fst (loop w self total pages (acc, m))
      = fst (loop w self total pages (acc, m'))
    /\ draws (snd (loop w self total pages (acc, m)))
       = draws (snd (loop w self total pages (acc, m')))
    /\ trace (snd (loop w self total pages (acc, m)))
       = trace (snd (loop w self total pages (acc, m'))).
Proof.
  induction pages as [|page pages IH]; intros acc m m' C D T.
  - now repeat split.
  - rewrite !loop_cons.
    destruct (iteration_ignores_disk total acc m m' page C D T)
      as [A [C' [D' T']]].
    rewrite A. now apply IH.
Qed.

(** A turn of the loop leaves [raised] as it is. *)
Lemma iteration_raises_nothing total acc m page :
  raised m = None ->
  raised (snd (iteration w self total (acc, m) page)) = None.
Proof. intros H. turn_cases total page; cbn [raised]; exact H. Qed.

(** The trace so far: the launch, the first navigation, and events of
    the session. *)
Definition in_one_session (_ : list record) (m : machine) : Prop :=
  exists session,
    trace m = (Launch :: Goto (url self) :: session)%list
    /\ forallb in_session session = true.

Lemma iteration_in_session total acc m page :
  in_one_session acc m ->
  in_one_session (fst (iteration w self total (acc, m) page))
                 (snd (iteration w self total (acc, m) page)).
Proof.
  intros [s [T Q]].
  exists (s ++ page_events w self total acc m page)%list. split.
  - now rewrite iteration_trace, T.
  - now rewrite forallb_app, Q, page_events_in_session.
Qed.

(** The file so far: what the saves so far made of the file [f0]. *)
Definition disk_follows_saves (f0 : destination) (_ : list record)
                              (m : machine)
  : Prop :=
  disk m = fold_left overwrite (map snd (saves (trace m))) f0.

Lemma iteration_disk_follows_saves total f0 acc m page :
  disk_follows_saves f0 acc m ->
  disk_follows_saves f0 (fst (iteration w self total (acc, m) page))
                        (snd (iteration w self total (acc, m) page)).
Proof.
  unfold disk_follows_saves. intros H.
  now rewrite iteration_disk, iteration_trace, saves_app, map_app,
    fold_left_app, H.
Qed.

End RunMore.

Lemma finish_draws st : draws (finish st) = draws (snd st).
Proof. unfold finish. now destruct (fst st). Qed.

Lemma finish_raised st : raised (finish st) = raised (snd st).
Proof. unfold finish. now destruct (fst st). Qed.

Lemma finish_disk st :
  disk (finish st)
  = match fst st with
    | [] => disk (snd st)
    | _ :: _ => overwrite (disk (snd st)) (fst st)
    end.
Proof. unfold finish. now destruct (fst st). Qed.

(** X14. The state of the output file has no influence on the crawl: what
    [run] requests, extracts, hands to [save_to_csv] and sleeps, and how
    many random numbers it draws, is the same whatever the file is, also
    when every save fails. *)
Theorem crawl_ignores_file
    (w : world) (self : WebScraper) (max_pages : option Z) (f f' : file) :
  trace (run w self max_pages f) = trace (run w self max_pages f')
  /\ draws (run w self max_pages f) = draws (run w self max_pages f').
Proof.
  destruct (navigate_to_url (goto (site w (url self)))) eqn:N.
  - rewrite !(run_first_loaded w self max_pages _ N).
    destruct (loop_ignores_disk w self (total_pages w self max_pages)
                (pages_of_run w self max_pages) []
                (started w self f) (started w self f')
                eq_refl eq_refl eq_refl) as [A [D T]].
    cbn [emit trace draws]. rewrite !finish_trace, !finish_draws, A, D, T.
    now split.
  - now rewrite !(run_first_failed w self max_pages _ N).
Qed.

Lemma run_session
    (w : world) (self : WebScraper) (max_pages : option Z) (f : destination) :
  exists session,
    trace (run w self max_pages f)
    = (Launch :: Goto (url self) :: session ++ [Close])%list
    /\ forallb in_session session = true.
Proof.
  destruct (navigate_to_url (goto (site w (url self)))) eqn:N.
  - rewrite (run_first_loaded w self max_pages f N). cbn [emit trace].
    rewrite finish_trace.
    destruct (loop_invariant w self (total_pages w self max_pages)
                (in_one_session self)
                (iteration_in_session w self (total_pages w self max_pages))
                (pages_of_run w self max_pages) [] (started w self f)
                (ex_intro _ [] (conj eq_refl eq_refl))) as [s [T Q]].
    rewrite T.
    exists (s ++ match fst (loop w self (total_pages w self max_pages)
                            (pages_of_run w self max_pages)
                            ([], started w self f)) with
                 | [] => []
                 | _ :: _ => [Save AfterLoop
                               (fst (loop w self (total_pages w self max_pages)
                                       (pages_of_run w self max_pages)
                                       ([], started w self f)))]
                 end)%list.
    split.
    + cbn [app]. now rewrite <- !app_assoc.
    + rewrite forallb_app, Q. now destruct (fst _).
  - rewrite (run_first_failed w self max_pages f N). exists []. now split.
Qed.

(** What [run] is on a host, from what it is where the browser
    launches and closes. *)
Lemma run_on_host (h : host) (self : WebScraper) (max_pages : option Z)
                  (d : destination) :
  run h self max_pages d
  = match launch h with
    | Raise e => fail e (emit Launch (boot d))
    | Ok _ =>
        match shutdown h with
        | Raise e => fail e (run (place h) self max_pages d)
        | Ok _ => run (place h) self max_pages d
        end
    end.
Proof.
  unfold run. destruct (launch h) as [u|e]; [|reflexivity].
  cbn [launch shutdown working place].
  destruct (do_navigate (place h) self None (emit Launch (boot d))) as [ok m].
  destruct (shutdown h); reflexivity.
Qed.

(** X13. [run] has no [try] around [initialize_browser] and [close].
    When the launch raises, [run] raises at once: it has navigated
    nowhere, closed nothing and left the file alone. When the launch
    succeeds, nothing before [close] makes [run] raise, whatever
    navigation, extraction or save fails: the navigation to the base
    URL comes first, the closing is attempted once, as the last thing,
    with no other launch or closing in between, and [run] raises only
    if the closing itself does. *)
Theorem browser_lifecycle
    (h : host) (self : WebScraper) (max_pages : option Z)
    (d : destination) :
  match launch h with
  | Raise e =>
      trace (run h self max_pages d) = [Launch]
      /\ raised (run h self max_pages d) = Some e
      /\ disk (run h self max_pages d) = d
  | Ok _ =>
      (exists session,
          trace (run h self max_pages d)
          = (Launch :: Goto (url self) :: session ++ [Close])%list
          /\ forallb in_session session = true)
      /\ raised (run h self max_pages d)
         = match shutdown h with
           | Raise e => Some e
           | Ok _ => None
           end
  end.
Proof.
  rewrite run_on_host. destruct (launch h) as [u|e]; [|now repeat split].
  pose proof (run_session (place h) self max_pages d) as S.
  assert (R : raised (run (place h) self max_pages d) = None).
  { destruct (navigate_to_url (goto (site (place h) (url self)))) eqn:N.
    - rewrite (run_first_loaded (place h) self max_pages d N).
      cbn [emit raised]. rewrite finish_raised.
      exact (loop_invariant (place h) self
               (total_pages (place h) self max_pages)
               (fun _ m => raised m = None)
               (iteration_raises_nothing (place h) self
                  (total_pages (place h) self max_pages))
               (pages_of_run (place h) self max_pages) []
               (started (place h) self d) eq_refl).
    - now rewrite (run_first_failed (place h) self max_pages d N). }
  destruct (shutdown h); (split; [exact S | exact R || reflexivity]).
Qed.

(** X19. The file changes through the calls of [save_to_csv] only: after a
    run it is what those calls, each in mode ['w'], make of the file
    in turn. *)
Theorem file_is_fold_of_saves
    (w : world) (self : WebScraper) (max_pages : option Z) (f : file) :
  disk (run w self max_pages f)
  = fold_left overwrite
      (map snd (saves (trace (run w self max_pages f)))) f.
Proof.
  destruct (navigate_to_url (goto (site w (url self)))) eqn:N.
  - rewrite (run_first_loaded w self max_pages f N). cbn [emit trace disk].
    rewrite saves_app, app_nil_r, finish_trace, finish_disk, saves_app,
      map_app, fold_left_app.
    rewrite <- (loop_invariant w self (total_pages w self max_pages)
                  (disk_follows_saves f)
                  (iteration_disk_follows_saves w self
                     (total_pages w self max_pages) f)
                  (pages_of_run w self max_pages) [] (started w self f)
                  eq_refl).
    now destruct (fst _).
  - now rewrite (run_first_failed w self max_pages f N).
Qed.

Section RunBatches.

Variable w : world.
Variable self : WebScraper.

Definition uniform (r : record) : Prop := keys r = field_names.










(** The draws so far are as many as the delays, and the delays were
    made from the draws in order. *)
Definition draws_in_order (_ : list record) (m : machine) : Prop :=
  draws m = List.length (sleeps (trace m))
  /\ map snd (sleeps (trace m))
     = map (fun i => random_delay self (random w i)) (seq 0 (draws m)).

Lemma iteration_draws_in_order total acc m page :
  draws_in_order acc m ->
  draws_in_order (fst (iteration w self total (acc, m) page))
                 (snd (iteration w self total (acc, m) page)).
Proof.
  intros [D S]. unfold draws_in_order.
  rewrite iteration_draws, iteration_trace, sleeps_app, List.length_app,
    map_app, seq_app, map_app, S, <- D. split; [reflexivity|].
  f_equal. apply iteration_delays.
Qed.

Lemma range_snoc (lo hi : Z) :
  lo <= hi -> Py.range lo (hi + 1) = (Py.range lo hi ++ [hi])%list.
Proof.
  intros H. unfold Py.range.
  replace (Z.to_nat (hi + 1 - lo)) with (S (Z.to_nat (hi - lo))) by lia.
  rewrite seq_S, map_app. cbn [map]. do 2 f_equal. lia.
Qed.

(** When the last page gets loaded, the loop ends on a flush. *)
Lemma loop_ends_flushed total m :
  loaded w self total = true ->
  fst (loop w self total (Py.range 1 (total + 1)) ([], m)) = [].
Proof.
  intros L. destruct (Z_lt_le_dec total 1) as [H | H].
  - rewrite range_nil by lia. reflexivity.
  - rewrite range_snoc by exact H. unfold loop. rewrite fold_left_app.
    cbn [fold_left].
    destruct (fold_left _ (Py.range 1 total) ([], m)) as [acc m'].
    rewrite iteration_all_data, L. unfold flush_due.
    now rewrite Z.eqb_refl, orb_true_r.
Qed.

End RunBatches.





(** X16. The delays of a run are made from the first values of
    [random.random()] in order, one value per delay: the run draws as
    many random numbers as it sleeps. *)
Theorem delays_use_successive_draws
    (w : world) (self : WebScraper) (max_pages : option Z) (f : file) :
  draws (run w self max_pages f)
  = List.length (sleeps (trace (run w self max_pages f)))
  /\ map snd (sleeps (trace (run w self max_pages f)))
     = map (fun i => random_delay self (random w i))
           (seq 0 (draws (run w self max_pages f))).
Proof.
  destruct (navigate_to_url (goto (site w (url self)))) eqn:N.
  - rewrite (run_first_loaded w self max_pages f N). cbn [emit trace draws].
    rewrite sleeps_app, app_nil_r, finish_adds_no_delay, finish_draws.
    exact (loop_invariant w self (total_pages w self max_pages)
             (draws_in_order w self)
             (iteration_draws_in_order w self (total_pages w self max_pages))
             (pages_of_run w self max_pages) [] (started w self f)
             (conj eq_refl eq_refl)).
  - rewrite (run_first_failed w self max_pages f N). now split.
Qed.

(** ** run: the delays *)

(** [delay] sends the draws, from 0 to 1, uniformly onto the range from
    [a] to [b]: into it, onto it, and stretching every interval of
    draws by the same factor, the width of the range, wherever the
    interval lies. *)
Definition uniform_onto (a b : Q) (delay : Q -> Q) : Prop :=
  (forall u, 0 <= u <= 1 -> a <= delay u <= b)%Q
  /\ (forall d, a <= d <= b -> exists u, 0 <= u <= 1 /\ delay u == d)%Q
  /\ (forall u v, delay v - delay u == (b - a) * (v - u))%Q.

Lemma random_delay_uniform (self : WebScraper) :
  (fst (delay_range self) <= snd (delay_range self))%Q ->
  uniform_onto (fst (delay_range self)) (snd (delay_range self))
               (random_delay self).
Proof.
  unfold random_delay, Py.uniform.
  set (a := fst (delay_range self)). set (b := snd (delay_range self)).
  intros H. split; [|split].
  - intros u [L U]. split; nra.
  - intros d [L U]. destruct (Qeq_dec a b) as [E | E].
    + exists 0%Q. split; [split; lra|]. nra.
    + assert (P : (0 < b - a)%Q) by (destruct (Qlt_le_dec a b); [lra|];
                                     exfalso; apply E; lra).
      exists ((d - a) / (b - a))%Q. split; [split|].
      * apply Qle_shift_div_l; [exact P | lra].
      * apply Qle_shift_div_r; [exact P | lra].
      * field. lra.
  - intros u v. ring.
Qed.

(** C5, as the code has it. In a run whose first navigation succeeds,
    one delay follows every page that got loaded, except the last page
    of the run; a page skipped for a navigation failure is followed by
    no delay, the next navigation comes at once. Every delay is drawn
    uniformly from the configured range, bounds included: the delays
    are made, in order, each from its own value of [random.random()],
    by a map that sends the draws uniformly onto the range. *)
Theorem delay_after_loaded_pages
    (w : world) (self : WebScraper) (max_pages : option Z) (f : file) :
  navigate_to_url (goto (site w (url self))) = true ->
  (fst (delay_range self) <= snd (delay_range self))%Q ->
  (forall i, 0 <= random w i <= 1)%Q ->
  let n := total_pages w self max_pages in
  let t := trace (run w self max_pages f) in
  map fst (sleeps t)
    = filter (fun p => loaded w self p && (p <? n)) (Py.range 1 (n + 1))
  /\ NoDup (map fst (sleeps t))
  /\ pacing t
     = inl (url self) :: flat_map (page_pacing w self n) (Py.range 1 (n + 1))
  /\ Forall (fun d => (fst (delay_range self) <= d
                       <= snd (delay_range self))%Q)
            (map snd (sleeps t))
  /\ map snd (sleeps t)
     = map (fun i => random_delay self (random w i))
           (seq 0 (List.length (sleeps t)))
  /\ uniform_onto (fst (delay_range self)) (snd (delay_range self))
                  (random_delay self).
Proof.
  intros N R U n t. subst t. rewrite (run_first_loaded w self max_pages f N).
  fold n. cbn [emit trace].
  rewrite sleeps_app, pacing_app, !app_nil_r, finish_adds_no_delay,
    finish_adds_no_pacing.
  assert (S : map fst (sleeps (trace (snd (loop w self n
                      (pages_of_run w self max_pages) ([], started w self f)))))
              = filter (fun p => loaded w self p && (p <? n))
                       (Py.range 1 (n + 1))).
  { rewrite (loop_reading w self n (fun t => map fst (sleeps t))
               (fun p => if loaded w self p && (p <? n) then [p] else [])).
    - cbn [started trace sleeps flat_map map app].
      rewrite (flat_map_if (fun p => loaded w self p && (p <? n)) (fun p => p)).
      now rewrite map_id.
    - intros. now rewrite sleeps_app, map_app.
    - intros. apply page_events_slept. }
  split; [exact S|]. split; [|split; [|split; [|split]]].
  - rewrite S. apply NoDup_filter, range_NoDup.
  - rewrite (loop_reading w self n pacing (page_pacing w self n)).
    + reflexivity.
    + apply pacing_app.
    + intros. apply page_events_pacing.
  - apply (loop_invariant w self n (fun _ m => delays_within self m)).
    + intros acc m page. now apply iteration_delays_within.
    + constructor.
  - destruct (loop_invariant w self n (draws_in_order w self)
                (iteration_draws_in_order w self n)
                (pages_of_run w self max_pages) [] (started w self f)
                (conj eq_refl eq_refl)) as [D E].
    now rewrite E, D.
  - now apply random_delay_uniform.
Qed.

Lemma delay_after_loaded_pages_witness :
  map fst (sleeps (trace (run page_2_down Demo.scraper None Missing))) = [1]
  /\ map snd (sleeps (trace (run page_2_down Demo.scraper None Missing)))
     = [random_delay Demo.scraper (random page_2_down 0)]
  /\ Forall (fun d => (2 # 1 <= d <= 5 # 1)%Q)
       (map snd (sleeps (trace (run page_2_down Demo.scraper None Missing)))).
Proof.
  assert (R : (fst (delay_range Demo.scraper)
               <= snd (delay_range Demo.scraper))%Q) by (cbn; lra).
  assert (U : forall i : nat, (0 <= random page_2_down i <= 1)%Q)
    by (intros i; cbn; lra).
  destruct (delay_after_loaded_pages page_2_down Demo.scraper None Missing
              eq_refl R U) as [S [_ [_ [D [E _]]]]].
  split; [exact S|]. split; [exact E | exact D].
Defined.


Lemma run_save_points
    (w : world) (self : WebScraper) (max_pages : option Z) (f : file) :
  navigate_to_url (goto (site w (url self))) = true ->
  let n := total_pages w self max_pages in
  let at_ := map fst (saves (trace (run w self max_pages f))) in
  let due := map InLoop
               (filter (fun p => loaded w self p && flush_due n p)
                       (Py.range 1 (n + 1))) in
  (at_ = due \/ (at_ = due ++ [AfterLoop])%list /\ loaded w self n = false).
Proof.
  intros N n at_ due. subst at_.
  rewrite (run_first_loaded w self max_pages f N). fold n. cbn [emit trace].
  rewrite saves_app, app_nil_r, finish_trace, saves_app, map_app.
  rewrite (loop_reading w self n (fun t => map fst (saves t))
             (fun p => if loaded w self p && flush_due n p
                       then [InLoop p] else [])).
  - cbn [started trace saves flat_map map app].
    rewrite (flat_map_if (fun p => loaded w self p && flush_due n p) InLoop).
    fold due. unfold pages_of_run. fold n.
    destruct (loaded w self n) eqn:L.
    + rewrite (loop_ends_flushed w self n (started w self f) L).
      left. apply app_nil_r.
    + destruct (fst _); [left; apply app_nil_r | right; now split].
  - intros. now rewrite saves_app, map_app.
  - intros. apply page_events_saved.
Qed.

(** X18. Where [run] saves. In the loop it saves on exactly the pages that
    got loaded and are a multiple of 5 or the last page; a page that is
    skipped is not a flush point. After the loop it saves at most once,
    and not at all when the last page got loaded. *)
Theorem save_points
    (w : world) (self : WebScraper) (max_pages : option Z) (f : file) :
  navigate_to_url (goto (site w (url self))) = true ->
  let n := total_pages w self max_pages in
  let at_ := map fst (saves (trace (run w self max_pages f))) in
  let due := map InLoop
               (filter (fun p => loaded w self p && flush_due n p)
                       (Py.range 1 (n + 1))) in
  (at_ = due \/ (at_ = due ++ [AfterLoop])%list /\ loaded w self n = false).
Proof.
  apply run_save_points.
Qed.

Lemma save_points_witness :
  map fst (saves (trace (run (Demo.world_of 7 1 [5; 7]) Demo.scraper None
                             Missing)))
  = [AfterLoop].
Proof.
  destruct (save_points (Demo.world_of 7 1 [5; 7]) Demo.scraper None Missing
              eq_refl) as [E | [E _]].
  - vm_compute in E. discriminate E.
  - rewrite E. reflexivity.
Defined.

(** ** run: page limits *)

Lemma clamp_min (mp total : Z) :
  mp <> 0 -> clamp (Some mp) total = Z.min mp total.
Proof.
  intros H. unfold clamp. apply Z.eqb_neq in H. rewrite H. cbn [negb andb].
  destruct (mp <? total) eqn:L;
    [apply Z.ltb_lt in L | apply Z.ltb_ge in L]; lia.
Qed.

Lemma range_length (lo hi : Z) :
  List.length (Py.range lo hi) = Z.to_nat (hi - lo).
Proof. unfold Py.range. now rewrite length_map, length_seq. Qed.

(** X22. With [max_pages] at least 1, the run goes to at most [max_pages]
    URLs, the base URL included, and extracts from pages 1 to
    [max_pages] only; the loop runs to the smaller of [max_pages] and
    the count of [get_total_pages]. *)
Theorem max_pages_bounds_run
    (w : world) (self : WebScraper) (mp : Z) (f : file) :
  1 <= mp ->
  total_pages w self (Some mp)
    = Z.min mp (get_total_pages (document (site w (url self))))
  /\ Z.of_nat (List.length (gotos (trace (run w self (Some mp) f)))) <= mp
  /\ Forall (fun p => 1 <= p <= mp)
            (map fst (extracts (trace (run w self (Some mp) f)))).
Proof.
  intros H.
  assert (T : total_pages w self (Some mp)
              = Z.min mp (get_total_pages (document (site w (url self)))))
    by (apply clamp_min; lia).
  split; [exact T|].
  destruct (navigate_to_url (goto (site w (url self)))) eqn:N.
  - rewrite (run_first_loaded w self (Some mp) f N). cbn [emit trace].
    set (n := total_pages w self (Some mp)) in *.
    assert (Hn : n <= mp) by lia.
    rewrite gotos_app, extracts_app, finish_trace, gotos_app, extracts_app.
    rewrite !map_app.
    rewrite (loop_reading w self n gotos
               (fun p => if 1 <? p then [page_url self p] else []))
      by (try apply gotos_app; intros; apply page_events_gotos).
    rewrite (loop_reading w self n (fun t => map fst (extracts t))
               (fun p => if loaded w self p then [p] else []))
      by (intros; try apply page_events_extracted;
          now rewrite extracts_app, map_app).
    rewrite (flat_map_if (fun p => 1 <? p) (page_url self)).
    rewrite (flat_map_if (loaded w self) (fun p => p)), map_id.
    unfold pages_of_run. fold n. rewrite range_after_first.
    split.
    + destruct (fst _); cbn [gotos started trace flat_map app];
        rewrite !app_nil_r; cbn [List.length];
        rewrite length_map, range_length; lia.
    + destruct (fst _); cbn [extracts started trace flat_map app map];
        rewrite !app_nil_r; apply Forall_forall; intros p Hp;
        apply filter_In in Hp as [Hp _]; apply range_In in Hp; lia.
  - rewrite (run_first_failed w self (Some mp) f N). cbn. split; [lia|constructor].
Qed.

Lemma max_pages_bounds_run_witness :
  gotos (trace (run twelve_pages Demo.scraper (Some 2) Missing))
  = ["https://x.test/list"; "https://x.test/list?page=2"]%string
  /\ (Z.of_nat (List.length
                  (gotos (trace (run twelve_pages Demo.scraper (Some 2)
                                     Missing)))) <= 2).
Proof.
  destruct (max_pages_bounds_run twelve_pages Demo.scraper 2 Missing
              ltac:(lia)) as [_ [G _]].
  split; [reflexivity | exact G].
Defined.

(** X23. When the page count the loop runs to is 0 or less (the only
    pagination link says [?page=0], or [max_pages] is negative), the
    run extracts nothing, although the first page is loaded: it closes
    the browser right after the first navigation and leaves the file as
    it was. *)
Theorem no_pages_nothing_done
    (w : world) (self : WebScraper) (max_pages : option Z) (f : file) :
  navigate_to_url (goto (site w (url self))) = true ->
  total_pages w self max_pages <= 0 ->
  trace (run w self max_pages f) = [Launch; Goto (url self); Close]
  /\ disk (run w self max_pages f) = f.
Proof.
  intros N T. rewrite (run_first_loaded w self max_pages f N).
  unfold pages_of_run. rewrite range_nil by lia. now split.
Qed.

(** A site that shows, at every URL, a company and a single pagination
    link, to page 0. *)
Definition zero_link_site : world :=
  {| site := fun _ =>
               Demo.ok_load
                 {| page_links := Ok [Ok (Some "/list?page=0"%string)];
                    companies := Ok [Demo.company 1 1] |};
     random := fun _ => 0%Q |}.

Lemma no_pages_nothing_done_witness :
  trace (run zero_link_site Demo.scraper None Missing)
  = [Launch; Goto Demo.base; Close]
  /\ extract_data (document (site zero_link_site Demo.base)) <> [].
Proof.
  destruct (no_pages_nothing_done zero_link_site Demo.scraper None Missing
              eq_refl) as [T _]; [vm_compute; discriminate|].
  split; [exact T | vm_compute; discriminate].
Defined.

(** X24. On a site without pagination (a page count of 1) the run is: launch,
    go to the base URL, extract, save what was extracted, close. It goes
    nowhere else and never sleeps, and the file is what that one save
    makes of it. *)
Theorem single_page_run
    (w : world) (self : WebScraper) (max_pages : option Z) (f : file) :
  navigate_to_url (goto (site w (url self))) = true ->
  total_pages w self max_pages = 1 ->
  trace (run w self max_pages f)
  = [ Launch; Goto (url self); Extract 1 (records_of w self 1);
      Save (InLoop 1) (records_of w self 1); Close ]
  /\ disk (run w self max_pages f) = overwrite f (records_of w self 1)
  /\ draws (run w self max_pages f) = 0%nat.
Proof.
  intros N T. rewrite (run_first_loaded w self max_pages f N).
  unfold pages_of_run. rewrite T. now repeat split.
Qed.

Lemma single_page_run_witness :
  trace (run (Demo.world_of 1 1 []) Demo.scraper None Missing)
  = [ Launch; Goto Demo.base;
      Extract 1 (records_of (Demo.world_of 1 1 []) Demo.scraper 1);
      Save (InLoop 1) (records_of (Demo.world_of 1 1 []) Demo.scraper 1);
      Close ].
Proof.
  destruct (single_page_run (Demo.world_of 1 1 []) Demo.scraper None Missing
              eq_refl eq_refl) as [T _].
  exact T.
Defined.

(** ** run: what the random numbers decide *)

Definition awake (e : event) : bool :=
  match e with
  | Sleep _ _ => false
  | _ => true
  end.

Section SameSite.

Variables w w' : world.
Variable self : WebScraper.
Hypothesis same_site : forall u, site w u = site w' u.

Lemma iteration_ignores_random total acc m m' page :
  current m = current m' -> disk m = disk m' ->
  filter awake (trace m) = filter awake (trace m') ->
  fst (iteration w self total (acc, m) page)
    = fst (iteration w' self total (acc, m') page)
  /\ current (snd (iteration w self total (acc, m) page))
     = current (snd (iteration w' self total (acc, m') page))
  /\ disk (snd (iteration w self total (acc, m) page))
     = disk (snd (iteration w' self total (acc, m') page))
  /\ filter awake (trace (snd (iteration w self total (acc, m) page)))
     = filter awake (trace (snd (iteration w' self total (acc, m') page))).
Proof.
  intros C D T.
  unfold iteration, do_navigate, do_save, do_random_delay, emit.
  rewrite ?target_url_page, <- !same_site.
  destruct (1 <? page); cbn [fst snd negb];
    [destruct (navigate_to_url (goto (site w (page_url self page))));
     cbn [negb]|];
    try destruct ((page mod 5 =? 0) || (page =? total));
    try destruct (page <? total);
    cbn [fst snd current disk draws trace];
    rewrite ?filter_app, ?C, ?D, ?T; repeat split.
Qed.

Lemma loop_ignores_random total pages :
  forall acc m m',
    current m = current m' -> disk m = disk m' ->
    filter awake (trace m) = filter awake (trace m') ->
    fst (loop w self total pages (acc, m))
      = fst (loop w' self total pages (acc, m'))
    /\ disk (snd (loop w self total pages (acc, m)))
       = disk (snd (loop w' self total pages (acc, m')))
    /\ filter awake (trace (snd (loop w self total pages (acc, m))))
       = filter awake (trace (snd (loop w' self total pages (acc, m')))).
Proof.
  induction pages as [|page pages IH]; intros acc m m' C D T.
  - now repeat split.
  - rewrite !loop_cons.
    destruct (iteration_ignores_random total acc m m' page C D T)
      as [A [C' [D' T']]].
    rewrite A. now apply IH.
Qed.

Lemma run_ignores_random (max_pages : option Z) (f : file) :
  disk (run w self max_pages f) = disk (run w' self max_pages f)
  /\ filter awake (trace (run w self max_pages f))
     = filter awake (trace (run w' self max_pages f)).
Proof.
  destruct (navigate_to_url (goto (site w (url self)))) eqn:N.
  - assert (N' : navigate_to_url (goto (site w' (url self))) = true)
      by now rewrite <- same_site.
    rewrite (run_first_loaded w self max_pages f N).
    rewrite (run_first_loaded w' self max_pages f N').
    assert (E : total_pages w' self max_pages = total_pages w self max_pages)
      by (unfold total_pages; now rewrite same_site).
    unfold pages_of_run. rewrite E.
    destruct (loop_ignores_random (total_pages w self max_pages)
                (Py.range 1 (total_pages w self max_pages + 1)) []
                (started w self f) (started w' self f))
      as [A [D T]];
      [unfold started; cbn [current]; now rewrite same_site
      | reflexivity | reflexivity |].
    cbn [emit trace disk]. rewrite !filter_app, !finish_trace, !finish_disk.
    rewrite !filter_app, A, D, T. now split.
  - assert (N' : navigate_to_url (goto (site w' (url self))) = false)
      by now rewrite <- same_site.
    rewrite (run_first_failed w self max_pages f N).
    rewrite (run_first_failed w' self max_pages f N'). now split.
Qed.

End SameSite.

(** X15. The random numbers decide the lengths of the delays and nothing
    else: on the same site, two runs that draw different numbers end
    with the same file and do the same things in the same order, the
    delays apart. *)
Theorem outcome_ignores_random
    (w w' : world) (self : WebScraper) (max_pages : option Z) (f : file) :
  (forall u, site w u = site w' u) ->
  disk (run w self max_pages f) = disk (run w' self max_pages f)
  /\ filter awake (trace (run w self max_pages f))
     = filter awake (trace (run w' self max_pages f)).
Proof. intros S. now apply run_ignores_random. Qed.

Lemma outcome_ignores_random_witness :
  disk (run {| site := site six_pages; random := fun i => 1 # Pos.of_succ_nat i |}
            Demo.scraper None Missing)
  = disk (run six_pages Demo.scraper None Missing).
Proof.
  apply (outcome_ignores_random
           {| site := site six_pages; random := fun i => 1 # Pos.of_succ_nat i |}
           six_pages Demo.scraper None Missing).
  intros u. reflexivity.
Defined.

(** ** ScraperManager *)

Record ScraperManager : Type := {
  scrapers : list WebScraper
}.

(** [ScraperManager()] *)
Definition no_scrapers : ScraperManager := {| scrapers := [] |}.

(** [add_scraper(url, output_file, delay_range=(1, 3))] *)
Definition add_scraper (self : ScraperManager) (u o : string)
                       (range : option (Q * Q))
  : WebScraper * ScraperManager :=
  let scraper :=
    {| url := u; output_file := o;
       delay_range := match range with
                      | Some r => r
                      | None => (1 # 1, 3 # 1)
                      end |} in
  (scraper, {| scrapers := scrapers self ++ [scraper] |}).

(** What the scrapers of one process share: the files, each under the
    name its paths resolve to, the order of what happens, and the
    exception that ended [run_sequential], if any. *)
Record process : Type := {
  files : string -> destination;
  journal : list event;
  aborted : option exn
}.

Definition write_file (name : string) (d : destination)
                      (fs : string -> destination)
  : string -> destination :=
  fun n => if String.eqb n name then d else fs n.

Definition fresh (fs : string -> destination) : process :=
  {| files := fs; journal := []; aborted := None |}.




Section Manager.

(** How the operating system resolves a path: two paths that lead to
    the same file ([out.csv] and [./out.csv], a link and its target)
    resolve to the same name. *)
Variable realpath : string -> string.

(** The host the [k]-th run of the process finds: the site and the
    random numbers then, and whether the browser launches and closes. *)
Variable hosts : nat -> host.

(** [await scraper.run()], as the [k]-th run *)
Definition run_scraper (k : nat) (ps : process) (scraper : WebScraper)
  : process :=
  let name := realpath (output_file scraper) in
  let m := run (hosts k) scraper None (files ps name) in
  {| files := write_file name (disk m) (files ps);
     journal := (journal ps ++ trace m)%list;
     aborted := raised m |}.

(** [for scraper in self.scrapers: await scraper.run()]: what a run
    raises ends the loop. *)
Fixpoint run_each (k : nat) (l : list WebScraper) (ps : process)
  : process :=
  match l with
  | [] => ps
  | scraper :: l' =>
      let ps' := run_scraper k ps scraper in
      match aborted ps' with
      | Some _ => ps'
      | None => run_each (S k) l' ps'
      end
  end.

(** [run_sequential()] *)
Definition run_sequential (self : ScraperManager) (ps : process)
  : process :=
  run_each 0 (scrapers self) ps.

(** The scrapers with the number of their run. *)
Definition numbered (k : nat) (l : list WebScraper)
  : list (nat * WebScraper) :=
  combine (seq k (List.length l)) l.

Definition resolved (scraper : WebScraper) : string :=
  realpath (output_file scraper).







Lemma run_each_files (name : string) (l : list WebScraper) :
  forall k ps,
    aborted (run_each k l ps) = None ->
    files (run_each k l ps) name
    = fold_left (fun d ks => disk (run (hosts (fst ks)) (snd ks) None d))
        (filter (fun ks => String.eqb name (resolved (snd ks)))
                (numbered k l))
        (files ps name).
Proof.
  induction l as [|s l IH]; intros k ps; cbn [run_each]; [reflexivity|].
  destruct (aborted (run_scraper k ps s)) as [e|] eqn:E; [congruence|].
  intros H. rewrite (IH (S k) _ H).
  unfold numbered. cbn [List.length seq combine filter snd].
  fold (numbered (S k) l). cbn [run_scraper files]. unfold write_file, resolved.
  destruct (String.eqb name (realpath (output_file s))) eqn:N; [|reflexivity].
  apply String.eqb_eq in N. subst name. reflexivity.
Qed.



(** X26. When no launch and no closing raises, after [run_sequential]
    the file of a name is what the runs of the scrapers whose
    [output_file] resolves to that name made of it, one after the other
    in the order the scrapers were added. Scrapers whose paths lead to
    the same file overwrite each other, also when the paths are
    different strings, and no scraper touches the file of another. *)
Theorem sequential_files_by_name
    (self : ScraperManager) (fs : string -> destination) (name : string) :
  aborted (run_sequential self (fresh fs)) = None ->
  files (run_sequential self (fresh fs)) name
  = fold_left (fun d ks => disk (run (hosts (fst ks)) (snd ks) None d))
      (filter (fun ks => String.eqb name (resolved (snd ks)))
              (numbered 0 (scrapers self)))
      (fs name).
Proof. intros H. exact (run_each_files name (scrapers self) 0 (fresh fs) H). Qed.


End Manager.

(** Paths relative to the working directory, with or without [./]. *)
Definition drop_dot_slash (path : string) : string :=
  if starts_with "./" path then drop 2 path else path.

(** Two scrapers on the demo site, each with its own output file. *)
Definition two_scrapers : ScraperManager :=
  snd (add_scraper
         (snd (add_scraper no_scrapers Demo.base "a.csv" None))
         Demo.base "./b.csv" (Some (2 # 1, 5 # 1))).

(** Two scrapers whose output paths are two names of one file. *)
Definition same_file_twice : ScraperManager :=
  snd (add_scraper
         (snd (add_scraper no_scrapers Demo.base "out.csv" None))
         "https://x.test/none" "./out.csv" None).

Lemma sequential_files_by_name_witness :
  files (run_sequential drop_dot_slash (fun _ => working six_pages)
           same_file_twice (fresh (fun _ => Missing))) "out.csv"
  = disk (run six_pages
              {| url := "https://x.test/none"; output_file := "./out.csv";
                 delay_range := (1 # 1, 3 # 1) |} None
              (disk (run six_pages
                         {| url := Demo.base; output_file := "out.csv";
                            delay_range := (1 # 1, 3 # 1) |} None Missing))).
Proof.
  rewrite (sequential_files_by_name drop_dot_slash
             (fun _ => working six_pages) same_file_twice
             (fun _ => At Missing) "out.csv" eq_refl).
  reflexivity.
Defined.


(** A launch that raises on the first run: the second scraper is not
    run. *)
Example launch_failure_ends_run_sequential :
  journal (run_sequential drop_dot_slash
             (fun _ => {| place := six_pages; launch := Raise Exception_;
                          shutdown := Ok tt |})
             two_scrapers (fresh (fun _ => Missing)))
  = [Launch]
  /\ aborted (run_sequential drop_dot_slash
                (fun _ => {| place := six_pages; launch := Raise Exception_;
                             shutdown := Ok tt |})
                two_scrapers (fresh (fun _ => Missing)))
     = Some Exception_.
Proof. split; reflexivity. Qed.

(** ** run: where the saved records come from *)

Section Provenance.

Variable w : world.
Variable self : WebScraper.
Variable total : Z.

Lemma loop_reading_after_first {X} (reading : list event -> list X)
                               (g : Z -> list X) :
  (forall t1 t2, reading (t1 ++ t2) = reading t1 ++ reading t2)%list ->
  (forall acc m page,
      1 < page -> reading (page_events w self total acc m page) = g page) ->
  forall pages, Forall (fun p => 1 < p) pages ->
  forall acc m,
    reading (trace (snd (loop w self total pages (acc, m))))
    = (reading (trace m) ++ flat_map g pages)%list.
Proof.
  intros App Ev pages. induction 1 as [|page pages P _ IH]; intros acc m.
  - cbn. now rewrite app_nil_r.
  - rewrite loop_cons, IH, iteration_trace, App, (Ev _ _ _ P).
    cbn [flat_map]. now rewrite app_assoc.
Qed.

(** What the loop extracts on a page it gets loaded. *)
Definition page_extract (page : Z) : list (Z * list record) :=
  if loaded w self page then [(page, records_of w self page)] else [].

Lemma page_events_extracts acc m page :
  1 < page ->
  extracts (page_events w self total acc m page) = page_extract page.
Proof.
  intros P. apply Z.ltb_lt in P.
  unfold page_events, page_extract, records_of, address, shown. rewrite P.
  destruct (loaded w self page), (flush_due total page), (page <? total);
    reflexivity.
Qed.

Lemma first_page_extracts acc f :
  extracts (page_events w self total acc (started w self f) 1)
  = page_extract 1.
Proof.
  unfold page_events, page_extract.
  change (loaded w self 1) with true.
  destruct (flush_due total 1), (1 <? total); reflexivity.
Qed.

Lemma loop_extracts f :
  extracts (trace (snd (loop w self total (Py.range 1 (total + 1))
                          ([], started w self f))))
  = map (fun p => (p, records_of w self p))
        (filter (loaded w self) (Py.range 1 (total + 1))).
Proof.
  rewrite <- flat_map_if. fold page_extract.
  change (fun x => if loaded w self x then [(x, records_of w self x)] else [])
    with page_extract.
  destruct (Z_lt_le_dec total 1) as [H | H].
  - rewrite range_nil by lia. reflexivity.
  - rewrite range_cons by lia. rewrite loop_cons.
    rewrite (loop_reading_after_first extracts page_extract).
    + rewrite iteration_trace, extracts_app, first_page_extracts. reflexivity.
    + apply extracts_app.
    + intros. now apply page_events_extracts.
    + apply Forall_forall. intros p Hp. apply range_In in Hp. lia.
Qed.

End Provenance.

Lemma run_conserves
    (w : world) (self : WebScraper) (max_pages : option Z) (f : file) :
  saved (trace (run w self max_pages f))
  = extracted (trace (run w self max_pages f)).
Proof.
  destruct (navigate_to_url (goto (site w (url self)))) eqn:N.
  - rewrite (run_first_loaded w self max_pages f N).
    pose proof (loop_invariant w self (total_pages w self max_pages)
                  (conserved)
                  (iteration_conserves w self (total_pages w self max_pages))
                  (pages_of_run w self max_pages) [] (started w self f)
                  eq_refl) as C.
    unfold conserved in C. cbn [emit trace].
    rewrite saved_app, extracted_app, finish_trace, saved_app, extracted_app.
    destruct (loop w self _ _ _) as [acc m]. cbn [fst snd] in *.
    rewrite <- C. destruct acc; cbn; now rewrite ?app_nil_r.
  - now rewrite (run_first_failed w self max_pages f N).
Qed.

Lemma run_extracts
    (w : world) (self : WebScraper) (max_pages : option Z) (f : file) :
  navigate_to_url (goto (site w (url self))) = true ->
  extracts (trace (run w self max_pages f))
  = map (fun p => (p, records_of w self p))
        (filter (loaded w self)
                (Py.range 1 (total_pages w self max_pages + 1))).
Proof.
  intros N. rewrite (run_first_loaded w self max_pages f N).
  cbn [emit trace]. rewrite extracts_app, finish_trace, extracts_app.
  unfold pages_of_run. rewrite loop_extracts.
  destruct (fst _); cbn; now rewrite !app_nil_r.
Qed.

Lemma saved_of_run
    (w : world) (self : WebScraper) (max_pages : option Z) (f : file) :
  navigate_to_url (goto (site w (url self))) = true ->
  let n := total_pages w self max_pages in
  extracts (trace (run w self max_pages f))
    = map (fun p => (p, records_of w self p))
          (filter (loaded w self) (Py.range 1 (n + 1)))
  /\ saved (trace (run w self max_pages f))
     = flat_map (records_of w self)
                (filter (loaded w self) (Py.range 1 (n + 1))).
Proof.
  intros N n. split; [now apply run_extracts|].
  rewrite run_conserves. unfold extracted.
  rewrite (run_extracts w self max_pages f N), map_map. cbn [snd].
  fold n. now rewrite flat_map_concat_map.
Qed.

(** X17. What a run hands to [save_to_csv], batch after batch, is exactly the
    records of the pages that got loaded, each page read from its own
    document, page after page: nothing is handed over twice, nothing
    extracted is left out, and a skipped page contributes nothing. *)
Theorem saved_is_all_loaded_pages
    (w : world) (self : WebScraper) (max_pages : option Z) (f : file) :
  navigate_to_url (goto (site w (url self))) = true ->
  let n := total_pages w self max_pages in
  extracts (trace (run w self max_pages f))
    = map (fun p => (p, records_of w self p))
          (filter (loaded w self) (Py.range 1 (n + 1)))
  /\ saved (trace (run w self max_pages f))
     = flat_map (records_of w self)
                (filter (loaded w self) (Py.range 1 (n + 1))).
Proof. apply saved_of_run. Qed.

Lemma saved_is_all_loaded_pages_witness :
  saved (trace (run page_2_down Demo.scraper None Missing))
  = (records_of page_2_down Demo.scraper 1
     ++ records_of page_2_down Demo.scraper 3)%list.
Proof.
  destruct (saved_is_all_loaded_pages page_2_down Demo.scraper None Missing
              eq_refl) as [_ S].
  rewrite S. reflexivity.
Defined.

(** ** run: when the file is complete *)




(** ** get_total_pages: the order of the links, the leftmost match *)

Section CounterMore.

(** The count for the links of a document. *)
Definition count_of (links : list (result (option string))) : Z :=
  if existsb href_fault links then 1
  else match page_numbers links with
       | [] => 1
       | p :: ps => Py.max p ps
       end.

Lemma get_total_pages_count (d : dom) links :
  page_links d = Ok links -> get_total_pages d = count_of links.
Proof.
  intros E. unfold get_total_pages, get_total_pages_try, count_of.
  rewrite E. cbn [bind]. destruct (existsb href_fault links) eqn:F.
  - destruct (collect_pages_fault links F []) as [e C]. now rewrite C.
  - rewrite (collect_pages_ok links F). cbn [app bind].
    now destruct (page_numbers links).
Qed.

Lemma existsb_Permutation {X} (c : X -> bool) (l l' : list X) :
  Permutation l l' -> existsb c l = existsb c l'.
Proof.
  induction 1 as [|x l l' _ IH|x y l|l l' l'' _ IH1 _ IH2]; cbn [existsb].
  - reflexivity.
  - now rewrite IH.
  - now rewrite !orb_assoc, (orb_comm (c y)).
  - now rewrite IH1.
Qed.

Lemma max_Permutation (x y : Z) (l l' : list Z) :
  Permutation (x :: l) (y :: l') -> Py.max x l = Py.max y l'.
Proof.
  intros P. destruct (max_spec l x) as [I U]. destruct (max_spec l' y) as [I' U'].
  rewrite Forall_forall in U, U'.
  pose proof (U' _ (Permutation_in _ P I)).
  pose proof (U _ (Permutation_in _ (Permutation_sym P) I')).
  lia.
Qed.

(** X8. The count does not depend on the order in which the document lists
    its pagination links. *)
Theorem count_ignores_link_order (d d' : dom) links links' :
  page_links d = Ok links -> page_links d' = Ok links' ->
  Permutation links links' ->
  get_total_pages d = get_total_pages d'.
Proof.
  intros E E' P.
  rewrite (get_total_pages_count d links E).
  rewrite (get_total_pages_count d' links' E'). unfold count_of.
  rewrite (existsb_Permutation href_fault links links' P).
  destruct (existsb href_fault links'); [reflexivity|].
  assert (N : Permutation (page_numbers links) (page_numbers links'))
    by (unfold page_numbers; now apply Permutation_flat_map).
  destruct (page_numbers links) as [|p ps], (page_numbers links') as [|p' ps'].
  - reflexivity.
  - now apply Permutation_nil_cons in N.
  - now apply Permutation_sym, Permutation_nil_cons in N.
  - now apply max_Permutation.
Qed.

Lemma count_ignores_link_order_witness :
  get_total_pages
    {| page_links := Ok [Ok (Some "?page=9"%string); Ok (Some "?page=10"%string)];
       companies := Ok [] |}
  = get_total_pages
      {| page_links := Ok [Ok (Some "?page=10"%string); Ok (Some "?page=9"%string)];
         companies := Raise Exception_ |}.
Proof.
  apply (count_ignores_link_order _ _
           [Ok (Some "?page=9"%string); Ok (Some "?page=10"%string)]
           [Ok (Some "?page=10"%string); Ok (Some "?page=9"%string)]);
    [reflexivity | reflexivity | apply perm_swap].
Defined.

(** X7. What [re_search] returns is the digits of the leftmost [?page=]
    that a digit follows, all of them up to the first character that is
    not a digit. *)
Theorem re_search_leftmost (s ds : string) :
  re_search s = Some ds ->
  exists before rest,
    s = (before ++ "?page=" ++ ds ++ rest)%string
    /\ ds <> EmptyString /\ all_digits ds = true
    /\ match first_char rest with
       | Some c => Py.isdigit c = false
       | None => True
       end
    /\ forall b c r,
         (String.length b < String.length before)%nat ->
         s = (b ++ "?page=" ++ String c r)%string ->
         Py.isdigit c = false.
Proof.
  induction s as [|a s IH]; rewrite re_search_unfold.
  - cbn. discriminate.
  - pose proof (match_here_none (String a s)) as M.
    destruct (match_here (String a s)) as [ds'|] eqn:H.
    + intros E. injection E as ->. clear M. unfold match_here in H.
      destruct (starts_with "?page=" (String a s)) eqn:P; [|discriminate].
      apply starts_with_split in P. cbn [String.length] in P.
      pose proof (span_digits_digits (drop 6 (String a s))) as D.
      destruct (span_digits_split (drop 6 (String a s))) as [rest [E R]].
      destruct (Py.span_digits (drop 6 (String a s))) as [|c t] eqn:G;
        [discriminate|].
      injection H as <-. exists EmptyString, rest.
      split; [rewrite P at 1; rewrite E at 1; reflexivity|].
      split; [discriminate|]. split; [exact D|]. split; [exact R|].
      intros b c' r L. cbn in L. lia.
    + intros E. destruct (IH E) as [before [rest [Es [N [D [R L]]]]]].
      exists (String a before), rest.
      split; [cbn; now f_equal|]. split; [exact N|]. split; [exact D|].
      split; [exact R|].
      intros [|a' b] c r Lb Eb.
      * exact (proj1 M eq_refl c r Eb).
      * injection Eb as _ Eb. cbn in Lb. apply (L b c r); [lia | exact Eb].
Qed.

Lemma re_search_leftmost_witness :
  exists before rest,
    "/l?page=x&u=?page=42;?page=7"%string
    = (before ++ "?page=" ++ "42" ++ rest)%string
    /\ match first_char rest with
       | Some c => Py.isdigit c = false
       | None => True
       end.
Proof.
  destruct (re_search_leftmost "/l?page=x&u=?page=42;?page=7" "42" eq_refl)
    as [before [rest [E [_ [_ [R _]]]]]].
  exists before, rest. split; [exact E | exact R].
Defined.

End CounterMore.

(** ** random_delay and navigate_to_url: edge cases *)

(** X11. The delay lies between the two bounds of [delay_range] whichever is
    the larger, and is that bound when they are equal. *)
Theorem random_delay_between_bounds (self : WebScraper) (u : Q) :
  (0 <= u <= 1)%Q ->
  let a := fst (delay_range self) in
  let b := snd (delay_range self) in
  ((a <= b -> a <= random_delay self u <= b)
   /\ (b <= a -> b <= random_delay self u <= a))%Q.
Proof.
  intros [L U] a b. unfold random_delay, Py.uniform. fold a b.
  split; intros H; split; nra.
Qed.

Lemma random_delay_between_bounds_witness :
  (2 # 1 <= random_delay {| url := Demo.base; output_file := "out.csv";
                            delay_range := (5 # 1, 2 # 1) |} (1 # 3)
   <= 5 # 1)%Q.
Proof.
  assert (U : (0 <= 1 # 3 <= 1)%Q) by (split; lra).
  destruct (random_delay_between_bounds
              {| url := Demo.base; output_file := "out.csv";
                 delay_range := (5 # 1, 2 # 1) |} (1 # 3) U) as [_ R].
  apply R. cbn. lra.
Defined.

(** X12. [navigate_to_url] goes to the base URL when it is given no URL or
    the empty one. The URL the loop builds for a page is never empty,
    so the loop is never sent back to the base URL that way. *)
Theorem navigation_target (self : WebScraper) :
  target_url self None = url self
  /\ target_url self (Some EmptyString) = url self
  /\ forall k, page_url self k <> EmptyString
               /\ target_url self (Some (page_url self k)) = page_url self k.
Proof.
  split; [reflexivity|]. split; [reflexivity|]. intros k.
  split; [|apply target_url_page].
  unfold page_url. intros E. apply append_empty in E.
  destruct (Py.contains "?" (url self)); discriminate E.
Qed.
